(** * InstrumentDashboard: ingestion, persistence and aggregation pipeline

    A shallow embedding of the data pipeline of the equipment-health
    dashboard: [src/src/hooks/useEquipmentData.js] (the [useEquipmentData]
    hook with [fetchEquipment], [saveEquipment], [clearAllData] and the
    helper [parseDate]) and [src/src/App.jsx] ([formatDate],
    [handleFileUpload], [filteredData], [alertItemsAll], [alertItems]).

    JavaScript values are modelled by the type [value]; an exception thrown
    by the code is the [Throw] case of [result].  The host environment (time
    zone, [Date.parse]) and the remote store are explicit arguments. *)

From Stdlib Require Import ZArith List String Ascii Bool Lia Permutation Sorted.
From stdpp Require Import gmap strings list.
Import ListNotations.

Local Open Scope string_scope.
Local Open Scope Z_scope.
Local Open Scope list_scope.

(** ** JavaScript values *)

Module JS.

(** The values the pipeline handles.  A number is an integer-valued double:
    every operation the code performs on numbers (subtraction and
    multiplication in the date conversion) is exact on integers below 2^53,
    and anything beyond the [Date] range is rejected by [TimeClip] before it
    is used.  A [Date] object holds its time value in milliseconds since
    1970-01-01T00:00:00Z, [None] being the Invalid Date (NaN). *)
Inductive value : Type :=
| VUndef
| VNull
| VBool (b : bool)
| VNum (n : Z)
| VStr (s : string)
| VDate (t : option Z).

(** Outcome of an evaluation that may throw. *)
Inductive result (A : Type) : Type :=
| Ok (a : A)
| Throw (msg : string).
Arguments Ok {A} a.
Arguments Throw {A} msg.

Definition bind {A B} (r : result A) (k : A -> result B) : result B :=
  match r with
  | Ok a => k a
  | Throw m => Throw m
  end.

(** [ToBoolean]. *)
Definition truthy (v : value) : bool :=
  match v with
  | VUndef | VNull => false
  | VBool b => b
  | VNum n => negb (n =? 0)
  | VStr s => negb (String.eqb s "")
  | VDate _ => true
  end.

(** [a || b]. *)
Definition or_else (a b : value) : value := if truthy a then a else b.

(** Property read [o[k]] on a plain object: [undefined] when absent. *)
Definition get (o : gmap string value) (k : string) : value :=
  match o !! k with
  | Some v => v
  | None => VUndef
  end.

(** [v === s] for a string literal [s]. *)
Definition is_str (v : value) (s : string) : bool :=
  match v with
  | VStr s' => String.eqb s' s
  | _ => false
  end.

(** [a === b] on the values of the model (two [Date] objects are compared
    by identity in JavaScript, which the model does not track: they are
    never strictly equal here). *)
Definition strict_eq (a b : value) : bool :=
  match a, b with
  | VUndef, VUndef | VNull, VNull => true
  | VBool x, VBool y => Bool.eqb x y
  | VNum x, VNum y => x =? y
  | VStr x, VStr y => String.eqb x y
  | _, _ => false
  end.

(** *** Characters and strings *)

Definition is_digit (c : ascii) : bool :=
  let n := nat_of_ascii c in (48 <=? n)%nat && (n <=? 57)%nat.

Definition is_upper (c : ascii) : bool :=
  let n := nat_of_ascii c in (65 <=? n)%nat && (n <=? 90)%nat.

Definition is_lower (c : ascii) : bool :=
  let n := nat_of_ascii c in (97 <=? n)%nat && (n <=? 122)%nat.

Definition is_alpha (c : ascii) : bool := is_upper c || is_lower c.

Definition lower_char (c : ascii) : ascii :=
  if is_upper c then ascii_of_nat (nat_of_ascii c + 32) else c.

(** [String.prototype.toLowerCase] (on the ASCII range; no character outside
    it lower-cases to a letter of "obsolete" or of a month abbreviation). *)
Fixpoint toLowerCase (s : string) : string :=
  match s with
  | EmptyString => EmptyString
  | String c s' => String (lower_char c) (toLowerCase s')
  end.

Fixpoint starts_with (p s : string) : bool :=
  match p, s with
  | EmptyString, _ => true
  | String a p', String b s' => Ascii.eqb a b && starts_with p' s'
  | String _ _, EmptyString => false
  end.

(** [s.includes(p)]. *)
Fixpoint includes (s p : string) : bool :=
  starts_with p s ||
  match s with
  | EmptyString => false
  | String _ s' => includes s' p
  end.

Definition is_space (c : ascii) : bool :=
  let n := nat_of_ascii c in
  (n =? 32)%nat || ((9 <=? n)%nat && (n <=? 13)%nat).

Fixpoint trim_start (s : string) : string :=
  match s with
  | EmptyString => EmptyString
  | String c s' => if is_space c then trim_start s' else s
  end.

Fixpoint trim_end (s : string) : string :=
  match s with
  | EmptyString => EmptyString
  | String c s' =>
      match trim_end s' with
      | EmptyString => if is_space c then EmptyString else String c EmptyString
      | t => String c t
      end
  end.

(** [String.prototype.trim] (ASCII white space). *)
Definition trim_string (s : string) : string := trim_end (trim_start s).

(** [v.trim()]: only strings have the method; on any other value the call
    throws a TypeError ([undefined] and [null] have no properties, numbers,
    booleans and dates have no [trim]). *)
Definition trim (v : value) : result value :=
  match v with
  | VStr s => Ok (VStr (trim_string s))
  | _ => Throw "TypeError: trim is not a function"
  end.

(** [v.toLowerCase()], same remark. *)
Definition lower (v : value) : result string :=
  match v with
  | VStr s => Ok (toLowerCase s)
  | _ => Throw "TypeError: toLowerCase is not a function"
  end.

Definition digit_val (c : ascii) : Z := Z.of_nat (nat_of_ascii c) - 48.

(** [parseInt] on a string of decimal digits. *)
Definition parseInt (s : string) : Z :=
  fold_left (fun acc c => 10 * acc + digit_val c) (list_ascii_of_string s) 0.

Definition digit_char (d : Z) : ascii := ascii_of_nat (48 + Z.to_nat (d mod 10)).

(** Decimal digits of a natural number, zero-padded to [w] places (the [w]
    least significant ones). *)
Fixpoint pad (w : nat) (n : Z) : string :=
  match w with
  | O => EmptyString
  | S w' => String.append (pad w' (n / 10)) (String (digit_char n) EmptyString)
  end.

(** Decimal digits of a positive number, most significant first. *)
Fixpoint digits_pos (fuel : nat) (n : Z) : string :=
  match fuel with
  | O => EmptyString
  | S f =>
      if n <? 10 then String (digit_char n) EmptyString
      else String.append (digits_pos f (n / 10)) (String (digit_char n) EmptyString)
  end.

(** [String(n)] for an integer. *)
Definition string_of_Z (n : Z) : string :=
  if n <? 0 then String "-" (digits_pos (Z.to_nat (- n) + 1) (- n))
  else digits_pos (Z.to_nat n + 1) n.

Fixpoint drop (n : nat) (s : string) : string :=
  match n, s with
  | O, _ => s
  | S _, EmptyString => EmptyString
  | S n', String _ s' => drop n' s'
  end.

(** [s.slice(-k)]: the last [k] characters. *)
Definition slice_last (k : nat) (s : string) : string :=
  drop (String.length s - k) s.

(** [s.split(sep)[0]]: the part of [s] before the first [sep]. *)
Fixpoint before (sep : ascii) (s : string) : string :=
  match s with
  | EmptyString => EmptyString
  | String c s' => if Ascii.eqb c sep then EmptyString else String c (before sep s')
  end.

(** Does the character [c] occur in [s]? *)
Fixpoint occurs (c : ascii) (s : string) : bool :=
  match s with
  | EmptyString => false
  | String c' s' => Ascii.eqb c' c || occurs c s'
  end.

End JS.

(** ** The [Date] built-in (ECMAScript, "Date Objects")

    Time values are milliseconds since 1970-01-01T00:00:00Z.  The abstract
    operations below are those of the language specification; [YearFromDay]
    computes "the largest integer y such that DayFromYear(y) <= day" from an
    estimate that is at most one year off, which [YearFromDay_spec] proves. *)

Module JSDate.

Definition msPerDay : Z := 86400000.

Definition Day (t : Z) : Z := t / msPerDay.
Definition TimeWithinDay (t : Z) : Z := t mod msPerDay.

Definition DayFromYear (y : Z) : Z :=
  365 * (y - 1970) + (y - 1969) / 4 - (y - 1901) / 100 + (y - 1601) / 400.

Definition is_leap (y : Z) : bool :=
  ((y mod 4 =? 0) && negb (y mod 100 =? 0)) || (y mod 400 =? 0).

Definition DaysInYear (y : Z) : Z := if is_leap y then 366 else 365.

Definition YearFromDay (d : Z) : Z :=
  let y := 1970 + (d * 400) / 146097 in
  if DayFromYear (y + 1) <=? d then y + 1
  else if DayFromYear y <=? d then y
  else y - 1.

Definition YearFromTime (t : Z) : Z := YearFromDay (Day t).

(** Number of days of the year that precede month [m] (0 = January). *)
Definition DaysBeforeMonth (leap : bool) (m : Z) : Z :=
  let l := if leap then 1 else 0 in
  match m with
  | 0 => 0
  | 1 => 31
  | 2 => 59 + l
  | 3 => 90 + l
  | 4 => 120 + l
  | 5 => 151 + l
  | 6 => 181 + l
  | 7 => 212 + l
  | 8 => 243 + l
  | 9 => 273 + l
  | 10 => 304 + l
  | 11 => 334 + l
  | _ => 365 + l
  end.

Definition DaysInMonth (leap : bool) (m : Z) : Z :=
  DaysBeforeMonth leap (m + 1) - DaysBeforeMonth leap m.

Definition DayWithinYear (d : Z) : Z := d - DayFromYear (YearFromDay d).

(** [MonthFromTime], on the day number: the month [m] with
    [DaysBeforeMonth m <= DayWithinYear < DaysBeforeMonth (m + 1)]. *)
Definition MonthFromDay (d : Z) : Z :=
  let leap := is_leap (YearFromDay d) in
  let w := DayWithinYear d in
  if w <? DaysBeforeMonth leap 1 then 0
  else if w <? DaysBeforeMonth leap 2 then 1
  else if w <? DaysBeforeMonth leap 3 then 2
  else if w <? DaysBeforeMonth leap 4 then 3
  else if w <? DaysBeforeMonth leap 5 then 4
  else if w <? DaysBeforeMonth leap 6 then 5
  else if w <? DaysBeforeMonth leap 7 then 6
  else if w <? DaysBeforeMonth leap 8 then 7
  else if w <? DaysBeforeMonth leap 9 then 8
  else if w <? DaysBeforeMonth leap 10 then 9
  else if w <? DaysBeforeMonth leap 11 then 10
  else 11.

(** [DateFromTime], on the day number: the day of the month, from 1. *)
Definition DateFromDay (d : Z) : Z :=
  DayWithinYear d - DaysBeforeMonth (is_leap (YearFromDay d)) (MonthFromDay d) + 1.

Definition MonthFromTime (t : Z) : Z := MonthFromDay (Day t).
Definition DateFromTime (t : Z) : Z := DateFromDay (Day t).

(** [MakeDay(year, month, date)]: months outside 0..11 carry into the year,
    and [date] is an offset from the first of the month, so that day 0 or
    day 31 of a 30-day month roll over. *)
Definition MakeDay (year month date : Z) : Z :=
  let ym := year + month / 12 in
  let mn := month mod 12 in
  DayFromYear ym + DaysBeforeMonth (is_leap ym) mn + date - 1.

(** [TimeClip]: a time value beyond 8.64e15 ms is not a date. *)
Definition TimeClip (t : Z) : option Z :=
  if Z.abs t <=? 8640000000000000 then Some t else None.

(** A civil date [y]-[m+1]-[d] that exists in the proleptic Gregorian
    calendar. *)
Definition valid_civil (y m d : Z) : Prop :=
  0 <= m <= 11 /\ 1 <= d <= DaysInMonth (is_leap y) m.

(** The host: its local time zone adjustment in milliseconds east of UTC
    (a fixed offset: no daylight saving change within the dates handled),
    and its implementation-defined [Date.parse] for strings. *)
Record host : Type := {
  tza : Z;
  date_parse : string -> option Z
}.

Definition LocalTime (h : host) (t : Z) : Z := t + tza h.
Definition UTC (h : host) (t : Z) : Z := t - tza h.

(** [new Date(ms)]. *)
Definition of_ms (ms : Z) : option Z := TimeClip ms.

(** [new Date(year, monthIndex, day)]: the fields are LOCAL time; a year in
    0..99 means 1900 + year. *)
Definition of_local (h : host) (year month day : Z) : option Z :=
  let yr := if (0 <=? year) && (year <=? 99) then 1900 + year else year in
  TimeClip (UTC h (MakeDay yr month day * msPerDay)).

(** [new Date(string)]. *)
Definition of_string (h : host) (s : string) : option Z :=
  match date_parse h s with
  | Some t => TimeClip t
  | None => None
  end.

(** [getMonth()] and [getFullYear()] read the LOCAL fields. *)
Definition getMonth (h : host) (t : Z) : Z := MonthFromTime (LocalTime h t).
Definition getFullYear (h : host) (t : Z) : Z := YearFromTime (LocalTime h t).

(** The date part of the ISO format: four digits for the years 0..9999, a
    sign and six digits otherwise. *)
Definition iso_year (y : Z) : string :=
  if (0 <=? y) && (y <=? 9999) then JS.pad 4 y
  else if y <? 0 then String "-" (JS.pad 6 (- y))
  else String "+" (JS.pad 6 y).

Definition iso_date (y m d : Z) : string :=
  String.append (iso_year y)
    (String "-" (String.append (JS.pad 2 (m + 1)) (String "-" (JS.pad 2 d)))).

(** [toISOString()] of a valid date: the UTC fields,
    YYYY-MM-DDTHH:mm:ss.sssZ. *)
Definition toISOString (t : Z) : string :=
  let d := Day t in
  let w := TimeWithinDay t in
  String.append (iso_date (YearFromDay d) (MonthFromDay d) (DateFromDay d))
    (String "T" (String.append (JS.pad 2 (w / 3600000))
      (String ":" (String.append (JS.pad 2 (w / 60000 mod 60))
        (String ":" (String.append (JS.pad 2 (w / 1000 mod 60))
          (String "." (String.append (JS.pad 3 (w mod 1000)) "Z")))))))).

End JSDate.

(** ** Date Normalizer: [parseDate] (hook) and [formatDate] (App) *)

Module Dates.
Import JS JSDate.

(** [monthMap], declared with the same entries in both functions. *)
Definition monthMap : gmap string Z :=
  list_to_map
    [("jan", 0); ("feb", 1); ("mar", 2); ("apr", 3); ("may", 4); ("jun", 5);
     ("jul", 6); ("aug", 7); ("sep", 8); ("oct", 9); ("nov", 10); ("dec", 11)].

(** [months] of [formatDate]. *)
Definition months : list string :=
  ["Jan"; "Feb"; "Mar"; "Apr"; "May"; "Jun"; "Jul"; "Aug"; "Sep"; "Oct"; "Nov"; "Dec"].

Definition all_digits (l : list ascii) : bool := forallb is_digit l.
Definition all_alpha (l : list ascii) : bool := forallb is_alpha l.
Definition is_dash (c : ascii) : bool := Ascii.eqb c "-".

Definition str (l : list ascii) : string := string_of_list_ascii l.

(** [dateValue.match(/^(\d{1,2})-([A-Za-z]{3})-(\d{4})$/)]: the three
    captured groups, or [None] when the string does not match. *)
Definition match_ddMmmYyyy (s : string) : option (string * string * string) :=
  match list_ascii_of_string s with
  | [d1; p; a; b; c; q; y1; y2; y3; y4] =>
      if all_digits [d1] && is_dash p && all_alpha [a; b; c] && is_dash q
         && all_digits [y1; y2; y3; y4]
      then Some (str [d1], str [a; b; c], str [y1; y2; y3; y4])
      else None
  | [d1; d2; p; a; b; c; q; y1; y2; y3; y4] =>
      if all_digits [d1; d2] && is_dash p && all_alpha [a; b; c] && is_dash q
         && all_digits [y1; y2; y3; y4]
      then Some (str [d1; d2], str [a; b; c], str [y1; y2; y3; y4])
      else None
  | _ => None
  end.

(** The variable [date] after the type dispatch, which is the same text in
    [parseDate] (lines 221-247 of the hook) and in [formatDate] (lines
    80-106 of App.jsx): [None] is [undefined], [Some None] the Invalid
    Date, [Some (Some t)] a date with time value [t]. *)
Definition date_of_value (h : host) (dateValue : value) : option (option Z) :=
  match dateValue with
  | VNum n => Some (of_ms ((n - 25569) * 86400 * 1000))
  | VStr s =>
      let date :=
        match match_ddMmmYyyy s with
        | Some (d, mon, y) =>
            let day := parseInt d in
            let monthStr := toLowerCase mon in
            let year := parseInt y in
            match monthMap !! monthStr with
            | Some m => Some (of_local h year m day)
            | None => None
            end
        | None => None
        end in
      match date with
      | Some (Some t) => date
      | _ => Some (of_string h s)
      end
  | VDate t => Some t
  | _ => None
  end.

(** [parseDate(dateValue)]: the ISO date string for the store, or [null]. *)
Definition parseDate (h : host) (dateValue : value) : value :=
  if negb (truthy dateValue) then VNull
  else
    match date_of_value h dateValue with
    | Some (Some t) => VStr (before "T" (toISOString t))
    | _ => VNull
    end.

(** [formatDate(dateValue)]: "Mmm-YY" for display, "-" for an empty value,
    and the value itself when no date comes out of it. *)
Definition formatDate (h : host) (dateValue : value) : value :=
  if negb (truthy dateValue) then VStr "-"
  else
    match date_of_value h dateValue with
    | Some (Some t) =>
        let month := nth (Z.to_nat (getMonth h t)) months "undefined" in
        let year := slice_last 2 (string_of_Z (getFullYear h t)) in
        VStr (String.append month (String "-" year))
    | _ => dateValue
    end.

(** Hosts used in the examples: UTC, Kuala Lumpur (UTC+8) and New York in
    winter (UTC-5); their [Date.parse] accepts nothing, which only matters
    for strings that are not in the D-MMM-YYYY form. *)
Definition host_utc : host := {| tza := 0; date_parse := fun _ => None |}.
Definition host_kl : host := {| tza := 8 * 3600000; date_parse := fun _ => None |}.
Definition host_ny : host := {| tza := -5 * 3600000; date_parse := fun _ => None |}.

End Dates.

(** ** Equipment records and the Record Mapper *)

Module Ingest.
Import JS.

(** An Equipment Record as the code builds it: an object whose fields hold
    whatever the spreadsheet cell or the store row held. *)
Record equipment : Type := {
  area : value;
  equipmentType : value;
  description : value;
  functionalLocation : value;
  criticality : value;
  status : value;
  alarmDescription : value;
  rectification : value;
  notificationDate : value
}.

(** A raw row of [XLSX.utils.sheet_to_json]: header to cell value. *)
Abbreviation row := (gmap string value).

(** A decoded workbook: [SheetNames], and for each entry of [Sheets] the rows
    that [sheet_to_json] returns for it. *)
Record workbook : Type := {
  SheetNames : list string;
  Sheets : gmap string (list row)
}.

Definition AREAS : list string :=
  ["Ammonia"; "Utility"; "Urea"; "PDF UET"; "System"; "Turbomachinery"].

(** [['Healthy', 'Caution', 'Warning'].includes(status)]. *)
Definition is_valid_status (status : value) : bool :=
  existsb (strict_eq status) [VStr "Healthy"; VStr "Caution"; VStr "Warning"].

(** The body of [jsonData.forEach(row => ...)] (App.jsx, lines 134-150):
    [Ok (Some r)] pushes [r], [Ok None] pushes nothing, [Throw] is an
    exception.  The equipment type is computed, and trimmed, before the
    status is looked at. *)
Definition mapRow (sheetName : string) (r : row) : result (option equipment) :=
  let status := or_else (get r "Status") (VStr "Unknown") in
  bind (trim (or_else (or_else (get r "Equiment Type") (get r "Equipment Type")) (VStr "Unknown")))
    (fun equipType =>
       if truthy status && is_valid_status status then
         Ok (Some {|
           area := VStr sheetName;
           equipmentType := equipType;
           description := or_else (get r "Description") (VStr "");
           functionalLocation := or_else (get r "Functional Location") (VStr "");
           criticality := or_else (or_else (get r "Criticality") (get r "Fleet")) (VStr "");
           status := status;
           alarmDescription := or_else (get r "Alarm Description") (VStr "");
           rectification := or_else (get r "Rectification") (VStr "");
           notificationDate := or_else (or_else (get r "Notification Date") (get r "Date")) (VStr "")
         |})
       else Ok None).

(** [jsonData.forEach] over the rows of one sheet, pushing onto [allData]. *)
Fixpoint mapRows (sheetName : string) (rows : list row) (allData : list equipment)
  : result (list equipment) :=
  match rows with
  | [] => Ok allData
  | r :: rows' =>
      bind (mapRow sheetName r) (fun o =>
        mapRows sheetName rows'
          (match o with Some e => allData ++ [e] | None => allData end))
  end.

(** [XLSX.utils.sheet_to_json(workbook.Sheets[sheetName])]. *)
Definition sheet_rows (wb : workbook) (sheetName : string) : list row :=
  match Sheets wb !! sheetName with
  | Some rows => rows
  | None => []
  end.

(** [workbook.SheetNames.includes(sheetName)]. *)
Definition has_sheet (wb : workbook) (sheetName : string) : bool :=
  existsb (String.eqb sheetName) (SheetNames wb).

(** [AREAS.forEach(sheetName => ...)] (App.jsx, lines 130-152). *)
Fixpoint ingestAreas (wb : workbook) (areas : list string) (allData : list equipment)
  : result (list equipment) :=
  match areas with
  | [] => Ok allData
  | sheetName :: areas' =>
      if has_sheet wb sheetName then
        bind (mapRows sheetName (sheet_rows wb sheetName) allData)
          (fun allData' => ingestAreas wb areas' allData')
      else ingestAreas wb areas' allData
  end.

(** The record sequence [allData] that [handleFileUpload] builds from a
    decoded workbook. *)
Definition ingest (wb : workbook) : result (list equipment) :=
  ingestAreas wb AREAS [].

End Ingest.

(** ** The remote store

    The hosted store is an external collaborator; it is modelled by its
    contract: an [equipment] table with delete-all, bulk insert and an
    ordered, ranged read, and a singleton [dashboard_meta] row with upsert
    and read.  Every call is recorded in [log].  Whether a call fails is the
    store's (or the network's) choice: [faults] lists the outcome of the
    calls to come, [Some msg] for a failure with that message, and a call
    made after the list is exhausted succeeds.  A failed call leaves the
    tables as they were. *)

Module Store.
Import JS.

(** A row of the [equipment] table (the columns the application reads). *)
Record db_row : Type := {
  db_area : value;
  db_status : value;
  equipment_type : value;
  db_description : value;
  functional_location : value;
  db_criticality : value;
  alarm_description : value;
  db_rectification : value;
  notification_date : value
}.

Inductive call : Type :=
| SelectMeta
| SelectRange (from to : Z)
| DeleteAll
| Insert (rows : list db_row)
| UpsertMeta (last_refreshed_at : Z).

Record remote : Type := {
  table : list db_row;
  meta : option Z;
  faults : list (option string);
  log : list call
}.

(** The outcome of the next call, and the store with the call logged. *)
Definition attempt (c : call) (s : remote) : option string * remote :=
  match faults s with
  | [] => (None, {| table := table s; meta := meta s; faults := []; log := log s ++ [c] |})
  | f :: fs => (f, {| table := table s; meta := meta s; faults := fs; log := log s ++ [c] |})
  end.

Definition with_table (t : list db_row) (s : remote) : remote :=
  {| table := t; meta := meta s; faults := faults s; log := log s |}.

Definition with_meta (m : option Z) (s : remote) : remote :=
  {| table := table s; meta := m; faults := faults s; log := log s |}.

(** Ascending order on a text column, NULLs last; strings compare
    character by character. *)
Definition text_compare (a b : value) : comparison :=
  match a, b with
  | VStr x, VStr y => String.compare x y
  | VStr _, _ => Lt
  | _, VStr _ => Gt
  | _, _ => Eq
  end.

(** [.order('area').order('equipment_type')]: does row [a] sort strictly
    after row [b]? *)
Definition after (a b : db_row) : bool :=
  match text_compare (db_area a) (db_area b) with
  | Lt => false
  | Gt => true
  | Eq =>
      match text_compare (equipment_type a) (equipment_type b) with
      | Gt => true
      | _ => false
      end
  end.

Fixpoint insert_row (x : db_row) (l : list db_row) : list db_row :=
  match l with
  | [] => [x]
  | y :: l' => if after x y then y :: insert_row x l' else x :: y :: l'
  end.

(** The rows in the order of the query; rows with equal keys keep their
    table order. *)
Fixpoint ordered (l : list db_row) : list db_row :=
  match l with
  | [] => []
  | x :: l' => insert_row x (ordered l')
  end.

(** [.range(from, to)] on the ordered rows: positions [from] to [to],
    both included. *)
Definition range (from to : Z) (l : list db_row) : list db_row :=
  firstn (Z.to_nat (to - from + 1)) (skipn (Z.to_nat from) l).

(** [from('dashboard_meta').select('last_refreshed_at').eq('id', 1).single()]:
    [data] is absent on failure and when there is no row. *)
Definition select_meta (s : remote) : option Z * remote :=
  match attempt SelectMeta s with
  | (None, s') => (meta s', s')
  | (Some _, s') => (None, s')
  end.

(** [from('equipment').select('*').order(..).order(..).range(from, to)]. *)
Definition select_range (from to : Z) (s : remote) : result (list db_row) * remote :=
  match attempt (SelectRange from to) s with
  | (None, s') => (Ok (range from to (ordered (table s'))), s')
  | (Some msg, s') => (Throw msg, s')
  end.

(** [from('equipment').delete().neq('id', <nil uuid>)]: every row. *)
Definition delete_all (s : remote) : option string * remote :=
  match attempt DeleteAll s with
  | (None, s') => (None, with_table [] s')
  | (Some msg, s') => (Some msg, s')
  end.

(** [from('equipment').insert(dbRecords)]. *)
Definition insert (rows : list db_row) (s : remote) : option string * remote :=
  match attempt (Insert rows) s with
  | (None, s') => (None, with_table (table s' ++ rows) s')
  | (Some msg, s') => (Some msg, s')
  end.

(** [from('dashboard_meta').upsert({id: 1, last_refreshed_at, ..})]. *)
Definition upsert_meta (now : Z) (s : remote) : option string * remote :=
  match attempt (UpsertMeta now) s with
  | (None, s') => (None, with_meta (Some now) s')
  | (Some msg, s') => (Some msg, s')
  end.

End Store.

(** ** The [useEquipmentData] hook and the upload handler

    The React state of the hook and of the component, the remote store and
    the clock form the state that the asynchronous functions thread; each of
    them is a state transformer returning its JavaScript return value. *)

Module Hook.
Import JS JSDate Dates Ingest Store.

Record world : Type := {
  data : option (list equipment);
  isLoading : bool;
  isSaving : bool;
  error : option string;
  lastRefreshedAt : option Z;
  fileName : string;
  isProcessingFile : bool;
  showClearConfirm : bool;
  store : remote;
  clock : Z
}.

Definition M (A : Type) : Type := world -> A * world.

Definition ret {A} (a : A) : M A := fun w => (a, w).

Definition mbind {A B} (m : M A) (k : A -> M B) : M B :=
  fun w => let (a, w') := m w in k a w'.

Notation "x <- m ;; k" := (mbind m (fun x => k))
  (at level 90, m at level 89, right associativity).
Notation "m ;;; k" := (mbind m (fun _ => k))
  (at level 90, right associativity).

Definition setData (d : option (list equipment)) : M unit := fun w =>
  (tt, {| data := d; isLoading := isLoading w; isSaving := isSaving w;
          error := error w; lastRefreshedAt := lastRefreshedAt w;
          fileName := fileName w; isProcessingFile := isProcessingFile w;
          showClearConfirm := showClearConfirm w; store := store w; clock := clock w |}).

Definition setIsLoading (b : bool) : M unit := fun w =>
  (tt, {| data := data w; isLoading := b; isSaving := isSaving w;
          error := error w; lastRefreshedAt := lastRefreshedAt w;
          fileName := fileName w; isProcessingFile := isProcessingFile w;
          showClearConfirm := showClearConfirm w; store := store w; clock := clock w |}).

Definition setIsSaving (b : bool) : M unit := fun w =>
  (tt, {| data := data w; isLoading := isLoading w; isSaving := b;
          error := error w; lastRefreshedAt := lastRefreshedAt w;
          fileName := fileName w; isProcessingFile := isProcessingFile w;
          showClearConfirm := showClearConfirm w; store := store w; clock := clock w |}).

Definition setError (e : option string) : M unit := fun w =>
  (tt, {| data := data w; isLoading := isLoading w; isSaving := isSaving w;
          error := e; lastRefreshedAt := lastRefreshedAt w;
          fileName := fileName w; isProcessingFile := isProcessingFile w;
          showClearConfirm := showClearConfirm w; store := store w; clock := clock w |}).

Definition setLastRefreshedAt (t : option Z) : M unit := fun w =>
  (tt, {| data := data w; isLoading := isLoading w; isSaving := isSaving w;
          error := error w; lastRefreshedAt := t;
          fileName := fileName w; isProcessingFile := isProcessingFile w;
          showClearConfirm := showClearConfirm w; store := store w; clock := clock w |}).

Definition setFileName (n : string) : M unit := fun w =>
  (tt, {| data := data w; isLoading := isLoading w; isSaving := isSaving w;
          error := error w; lastRefreshedAt := lastRefreshedAt w;
          fileName := n; isProcessingFile := isProcessingFile w;
          showClearConfirm := showClearConfirm w; store := store w; clock := clock w |}).

Definition setIsProcessingFile (b : bool) : M unit := fun w =>
  (tt, {| data := data w; isLoading := isLoading w; isSaving := isSaving w;
          error := error w; lastRefreshedAt := lastRefreshedAt w;
          fileName := fileName w; isProcessingFile := b;
          showClearConfirm := showClearConfirm w; store := store w; clock := clock w |}).

Definition setShowClearConfirm (b : bool) : M unit := fun w =>
  (tt, {| data := data w; isLoading := isLoading w; isSaving := isSaving w;
          error := error w; lastRefreshedAt := lastRefreshedAt w;
          fileName := fileName w; isProcessingFile := isProcessingFile w;
          showClearConfirm := b; store := store w; clock := clock w |}).

(** [await supabase...]: one call to the remote store. *)
Definition remote_call {A} (f : remote -> A * remote) : M A := fun w =>
  let (a, s') := f (store w) in
  (a, {| data := data w; isLoading := isLoading w; isSaving := isSaving w;
         error := error w; lastRefreshedAt := lastRefreshedAt w;
         fileName := fileName w; isProcessingFile := isProcessingFile w;
         showClearConfirm := showClearConfirm w; store := s'; clock := clock w |}).

(** [new Date()]. *)
Definition now : M Z := fun w => (clock w, w).

Definition not_configured : string :=
  "Supabase is not configured. Please set environment variables.".

(** App format to database format ([saveEquipment], lines 102-112). *)
Definition toDb (h : host) (item : equipment) : db_row := {|
  db_area := area item;
  db_status := status item;
  equipment_type := or_else (equipmentType item) VNull;
  db_description := or_else (description item) VNull;
  functional_location := or_else (functionalLocation item) VNull;
  db_criticality := or_else (criticality item) VNull;
  alarm_description := or_else (alarmDescription item) VNull;
  db_rectification := or_else (rectification item) VNull;
  notification_date := parseDate h (notificationDate item)
|}.

(** Database format to app format ([fetchEquipment], lines 62-72). *)
Definition fromDb (item : db_row) : equipment := {|
  area := db_area item;
  equipmentType := or_else (equipment_type item) (VStr "");
  description := or_else (db_description item) (VStr "");
  functionalLocation := or_else (functional_location item) (VStr "");
  criticality := or_else (db_criticality item) (VStr "");
  status := db_status item;
  alarmDescription := or_else (alarm_description item) (VStr "");
  rectification := or_else (db_rectification item) (VStr "");
  notificationDate := or_else (notification_date item) (VStr "")
|}.

Definition pageSize : Z := 1000.

(** The [while (hasMore)] loop of [fetchEquipment] (lines 39-52), entered
    with [hasMore] true.  [fuel] bounds the number of requests; the result
    is [None] only when it runs out. *)
Fixpoint fetch_pages (fuel : nat) (from : Z) (allEquipment : list db_row)
  : M (option (result (list db_row))) :=
  match fuel with
  | O => ret None
  | S fuel' =>
      r <- remote_call (select_range from (from + pageSize - 1)) ;;
      match r with
      | Throw fetchError => ret (Some (Throw fetchError))
      | Ok page =>
          let allEquipment' := (allEquipment ++ page)%list in
          let hasMore := Z.of_nat (length page) =? pageSize in
          let from' := from + pageSize in
          if hasMore then fetch_pages fuel' from' allEquipment'
          else ret (Some (Ok allEquipment'))
      end
  end.

(** [fetchEquipment()] (lines 15-83); the returned array, [None] when the
    paging loop has not finished within [fuel] requests. *)
Definition fetchEquipment (configured : bool) (fuel : nat) : M (option (list equipment)) :=
  if negb configured then
    setIsLoading false ;;;
    setError (Some not_configured) ;;;
    ret (Some [])
  else
    setIsLoading true ;;;
    setError None ;;;
    metaResult <- remote_call select_meta ;;
    pages <- fetch_pages fuel 0 [] ;;
    match pages with
    | None => ret None
    | Some (Throw msg) =>
        setError (Some (String.append "Failed to load data: " msg)) ;;;
        setIsLoading false ;;;
        ret (Some [])
    | Some (Ok allEquipment) =>
        match metaResult with
        | Some t => setLastRefreshedAt (Some t)
        | None => ret tt
        end ;;;
        let transformedData := map fromDb allEquipment in
        setData (if (0 <? Z.of_nat (length transformedData)) then Some transformedData else None) ;;;
        setIsLoading false ;;;
        ret (Some transformedData)
    end.

(** The [try] block of [saveEquipment] (lines 100-148): [Throw] is the
    exception that the [catch] receives. *)
Definition save_try (h : host) (equipmentData : list equipment) : M (result bool) :=
  let dbRecords := map (toDb h) equipmentData in
  deleteError <- remote_call delete_all ;;
  match deleteError with
  | Some msg => ret (Throw msg)
  | None =>
      insertError <- remote_call (insert dbRecords) ;;
      match insertError with
      | Some msg => ret (Throw msg)
      | None =>
          t <- now ;;
          metaError <- remote_call (upsert_meta t) ;;
          match metaError with
          | Some _ => ret tt
          | None => setLastRefreshedAt (Some t)
          end ;;;
          setData (Some equipmentData) ;;;
          setIsSaving false ;;;
          ret (Ok true)
      end
  end.

(** [saveEquipment(equipmentData)] (lines 86-155); the argument is [None]
    when the caller passes [null] or [undefined]. *)
Definition saveEquipment (configured : bool) (h : host)
  (equipmentData : option (list equipment)) : M bool :=
  if negb configured then
    setError (Some not_configured) ;;;
    ret false
  else
    match equipmentData with
    | None | Some [] =>
        setError (Some "No data to save.") ;;;
        ret false
    | Some records =>
        setIsSaving true ;;;
        setError None ;;;
        r <- save_try h records ;;
        match r with
        | Ok b => ret b
        | Throw msg =>
            setError (Some (String.append "Failed to save data: " msg)) ;;;
            setIsSaving false ;;;
            ret false
        end
    end.

(** [clearAllData()] (lines 158-185). *)
Definition clearAllData (configured : bool) : M bool :=
  if negb configured then
    setError (Some not_configured) ;;;
    ret false
  else
    setIsSaving true ;;;
    setError None ;;;
    deleteError <- remote_call delete_all ;;
    match deleteError with
    | Some msg =>
        setError (Some (String.append "Failed to clear data: " msg)) ;;;
        setIsSaving false ;;;
        ret false
    | None =>
        setData None ;;;
        setIsSaving false ;;;
        ret true
    end.

(** [clearError()]. *)
Definition clearError : M unit := setError None.

(** [handleFileUpload(event)] (App.jsx, lines 116-173), with the callback of
    the file reader run to completion.  [file] is [event.target.files[0]]:
    its name and what [XLSX.read] makes of its content, [Throw] when the
    bytes cannot be decoded. *)
Definition handleFileUpload (configured : bool) (h : host)
  (file : option (string * result workbook)) : M unit :=
  match file with
  | None => ret tt
  | Some (name, decoded) =>
      setIsProcessingFile true ;;;
      setFileName name ;;;
      clearError ;;;
      match bind decoded ingest with
      | Throw _ => setIsProcessingFile false
      | Ok allData =>
          (if configured && (0 <? Z.of_nat (length allData)) then
             success <- saveEquipment configured h (Some allData) ;;
             if negb success then setData (Some allData) else ret tt
           else setData (Some allData)) ;;;
          setIsProcessingFile false
      end
  end.

(** [handleClearAllData()] (App.jsx, lines 176-182). *)
Definition handleClearAllData (configured : bool) : M unit :=
  success <- clearAllData configured ;;
  if success then setFileName "" ;;; setShowClearConfirm false else ret tt.

(** The state when the component mounts, before the initial fetch. *)
Definition initial (s : remote) (t : Z) : world := {|
  data := None; isLoading := true; isSaving := false; error := None;
  lastRefreshedAt := None; fileName := ""; isProcessingFile := false;
  showClearConfirm := false; store := s; clock := t
|}.

End Hook.

(** ** Aggregation: the filtered set and the alert list (App.jsx) *)

Module Views.
Import JS Ingest.

(** The three filter selections, each "All" or a specific value. *)
Record selection : Type := {
  selectedArea : string;
  selectedEquipment : string;
  selectedStatus : string
}.

(** [x !== 'All' && v !== x]. *)
Definition excluded (x : string) (v : value) : bool :=
  negb (String.eqb x "All") && negb (is_str v x).

(** [filteredData] (lines 184-192). *)
Definition filteredData (data : option (list equipment)) (f : selection) : list equipment :=
  match data with
  | None => []
  | Some d =>
      List.filter (fun item =>
        if excluded (selectedArea f) (area item) then false
        else if excluded (selectedEquipment f) (equipmentType item) then false
        else if excluded (selectedStatus f) (status item) then false
        else true) d
  end.

(** The callback of the alert filter (line 259):
    [d.status !== 'Healthy' && d.alarmDescription &&
     !d.alarmDescription.toLowerCase().includes('obsolete')]. *)
Definition is_alert (d : equipment) : result bool :=
  if negb (is_str (status d) "Healthy") then
    if truthy (alarmDescription d) then
      bind (lower (alarmDescription d)) (fun s => Ok (negb (includes s "obsolete")))
    else Ok false
  else Ok false.

(** [Array.prototype.filter] with a callback that may throw. *)
Fixpoint filter_r {A} (p : A -> result bool) (l : list A) : result (list A) :=
  match l with
  | [] => Ok []
  | x :: l' =>
      bind (p x) (fun b =>
        bind (filter_r p l') (fun r => Ok (if b then x :: r else r)))
  end.

(** The comparator of the alert sort (lines 260-265). *)
Definition by_severity (a b : equipment) : Z :=
  if is_str (status a) "Warning" && is_str (status b) "Caution" then -1
  else if is_str (status a) "Caution" && is_str (status b) "Warning" then 1
  else 0.

(** [Array.prototype.sort(cmp)]: a stable sort; with a consistent
    comparator every stable sort returns the list that this insertion sort
    returns. *)
Fixpoint insert_by {A} (cmp : A -> A -> Z) (x : A) (l : list A) : list A :=
  match l with
  | [] => [x]
  | y :: l' => if 0 <? cmp x y then y :: insert_by cmp x l' else x :: y :: l'
  end.

Fixpoint sort_by {A} (cmp : A -> A -> Z) (l : list A) : list A :=
  match l with
  | [] => []
  | x :: l' => insert_by cmp x (sort_by cmp l')
  end.

(** [alertItemsAll] (lines 256-266). *)
Definition alertItemsAll (data : option (list equipment)) (f : selection)
  : result (list equipment) :=
  let fd := filteredData data f in
  if (Z.of_nat (length fd) =? 0) then Ok []
  else bind (filter_r is_alert fd) (fun l => Ok (sort_by by_severity l)).


End Views.

(** ** Aggregation: the other derived views (App.jsx)

    [show] stands for JavaScript's [ToString] on the values that are not
    strings (numbers, booleans, dates), which the views apply when a field is
    used as a property key or compared by the default sort; it is never
    applied to a string. *)

Module Charts.
Import JS Ingest Views.

(** [ToString(v)]. *)
Definition to_str (show : value -> string) (v : value) : string :=
  match v with
  | VStr s => s
  | _ => show v
  end.

(** The property names that every plain object inherits from
    [Object.prototype]; each of them reads as a function or an object, hence
    as a truthy value. *)
Definition object_prototype_keys : list string :=
  ["constructor"; "__defineGetter__"; "__defineSetter__"; "hasOwnProperty";
   "__lookupGetter__"; "__lookupSetter__"; "isPrototypeOf";
   "propertyIsEnumerable"; "toString"; "valueOf"; "__proto__"; "toLocaleString"].

Definition inherited (k : string) : bool :=
  existsb (String.eqb k) object_prototype_keys.

(** [critMap] of [formatCriticality]. *)
Definition critMap : gmap string string :=
  list_to_map
    [("high", "C1"); ("medium", "C2"); ("low", "C3");
     ("c1", "C1"); ("c2", "C2"); ("c3", "C3")].

(** What [formatCriticality] returns: a value of the model, or the member of
    [Object.prototype] that [critMap] inherits under the given key. *)
Inductive shown : Type :=
| Shown (v : value)
| Inherited (key : string).

(** [formatCriticality(criticality)] (lines 47-58). *)
Definition formatCriticality (criticality : value) : result shown :=
  if negb (truthy criticality) then Ok (Shown (VStr "-"))
  else
    bind (lower criticality) (fun key =>
      match critMap !! key with
      | Some c => Ok (Shown (VStr c))
      | None => if inherited key then Ok (Inherited key) else Ok (Shown criticality)
      end).




(** [l.filter(d => d.status === st).length]. *)
Definition count_status (st : string) (l : list equipment) : Z :=
  Z.of_nat (length (List.filter (fun d => is_str (status d) st) l)).

Record stats_t : Type := {
  total : Z;
  healthy : Z;
  caution : Z;
  warning : Z
}.

(** [stats] (lines 200-208). *)
Definition stats (data : option (list equipment)) (f : selection) : stats_t :=
  let fd := filteredData data f in
  if Z.of_nat (length fd) =? 0 then
    {| total := 0; healthy := 0; caution := 0; warning := 0 |}
  else
    {| total := Z.of_nat (length fd);
       healthy := count_status "Healthy" fd;
       caution := count_status "Caution" fd;
       warning := count_status "Warning" fd |}.

(** An entry of [areaChartData]: the fields [name], [Healthy], [Caution],
    [Warning] and [total] of the source. *)
Record area_entry : Type := {
  area_name : string;
  area_Healthy : Z;
  area_Caution : Z;
  area_Warning : Z;
  area_total : Z
}.

(** [areaChartData] (lines 210-229).  The keys of [grouped] are the area
    names, none of which is an array index, so that [Object.values] returns
    the entries in the order in which [AREAS.forEach] created them. *)
Definition areaChartData (data : option (list equipment)) (selectedArea : string)
  : list area_entry :=
  match data with
  | None => []
  | Some d =>
      let areaData :=
        if String.eqb selectedArea "All" then d
        else List.filter (fun x => is_str (area x) selectedArea) d in
      flat_map (fun a =>
        let areaItems := List.filter (fun x => is_str (area x) a) areaData in
        if 0 <? Z.of_nat (length areaItems) then
          [{| area_name := a;
              area_Healthy := count_status "Healthy" areaItems;
              area_Caution := count_status "Caution" areaItems;
              area_Warning := count_status "Warning" areaItems;
              area_total := Z.of_nat (length areaItems) |}]
        else []) AREAS
  end.

(** An entry of [pieData]: [name], [value] and [color]. *)
Record pie_slice : Type := {
  slice_name : string;
  slice_value : Z;
  slice_color : string
}.

(** [pieData] (lines 247-254), with the colours of [STATUS_COLORS]. *)
Definition pieData (s : stats_t) : list pie_slice :=
  if total s =? 0 then []
  else
    List.filter (fun d => 0 <? slice_value d)
      [{| slice_name := "Healthy"; slice_value := healthy s; slice_color := "#00B1A9" |};
       {| slice_name := "Caution"; slice_value := caution s; slice_color := "#FDB924" |};
       {| slice_name := "Warning"; slice_value := warning s; slice_color := "#E31837" |}].

(** The callback of the obsolescence filter (line 275):
    [d.status !== 'Healthy' && d.alarmDescription &&
     d.alarmDescription.toLowerCase().includes('obsolete')]. *)
Definition is_aging (d : equipment) : result bool :=
  if negb (is_str (status d) "Healthy") then
    if truthy (alarmDescription d) then
      bind (lower (alarmDescription d)) (fun s => Ok (includes s "obsolete"))
    else Ok false
  else Ok false.

(** [agingItems] (lines 272-282). *)
Definition agingItems (data : option (list equipment)) (f : selection)
  : result (list equipment) :=
  let fd := filteredData data f in
  if (Z.of_nat (length fd) =? 0) then Ok []
  else bind (filter_r is_aging fd) (fun l => Ok (sort_by by_severity l)).

(** [groups[key].push(item)] on the own properties of [groups], kept in
    creation order; a new key starts its array. *)
Fixpoint group_push (key : string) (item : equipment)
  (groups : list (string * list equipment)) : list (string * list equipment) :=
  match groups with
  | [] => [(key, [item])]
  | (k, its) :: groups' =>
      if String.eqb k key then (k, its ++ [item]) :: groups'
      else (k, its) :: group_push key item groups'
  end.

(** The [forEach] of [groupedAlerts] and [groupedAging] (lines 287-292 and
    303-308).  Under a key that [groups] inherits, [groups[key]] is truthy
    without being an array: no array is created and [push] is not a
    function. *)
Fixpoint group_items (show : value -> string) (l : list equipment)
  (groups : list (string * list equipment)) : result (list (string * list equipment)) :=
  match l with
  | [] => Ok groups
  | item :: l' =>
      let key := to_str show (equipmentType item) in
      if inherited key then Throw "TypeError: push is not a function"
      else group_items show l' (group_push key item groups)
  end.

(** [groups[type]] for a key of [groups]. *)
Fixpoint group_get (key : string) (groups : list (string * list equipment))
  : list equipment :=
  match groups with
  | [] => []
  | (k, its) :: groups' => if String.eqb k key then its else group_get key groups'
  end.

(** The comparator of the default sort on strings. *)
Definition string_compare (a b : string) : Z :=
  match String.compare a b with
  | Lt => -1
  | Eq => 0
  | Gt => 1
  end.

(** A group of the grouped lists: the fields [equipmentType] and [items]. *)
Record alert_group : Type := {
  group_type : string;
  group_list : list equipment
}.

(** [Object.keys(groups).sort().map(type => ({ equipmentType: type,
    items: groups[type] }))] (lines 294-297 and 310-313). *)
Definition sorted_groups (groups : list (string * list equipment)) : list alert_group :=
  map (fun type => {| group_type := type; group_list := group_get type groups |})
    (sort_by string_compare (map fst groups)).

(** [groupedAlerts] (lines 285-298). *)
Definition groupedAlerts (show : value -> string) (data : option (list equipment))
  (f : selection) : result (list alert_group) :=
  bind (alertItemsAll data f) (fun items =>
    bind (group_items show items []) (fun groups => Ok (sorted_groups groups))).

(** [groupedAging] (lines 301-314). *)
Definition groupedAging (show : value -> string) (data : option (list equipment))
  (f : selection) : result (list alert_group) :=
  bind (agingItems data f) (fun items =>
    bind (group_items show items []) (fun groups => Ok (sorted_groups groups))).

End Charts.

(** ** Specification-side definitions

    The predicates in which the properties below are stated; none of them
    is part of the program. *)

Module Spec.
Import JS JSDate Dates Ingest Store Hook Views.

(** The record set as the data model types it: a status of the
    enumeration and a textual alarm description. *)
Definition well_typed (r : equipment) : Prop :=
  is_valid_status (status r) = true /\ exists s, alarmDescription r = VStr s.

(** [s] contains [p], case-insensitively. *)
Definition contains_ci (s p : string) : Prop :=
  exists pre post, toLowerCase s = String.append pre (String.append p post).


(** The same condition as a boolean test. *)
Definition alert_b (r : equipment) : bool :=
  negb (is_str (status r) "Healthy") &&
  match alarmDescription r with
  | VStr s => negb (String.eqb s "") && negb (includes (toLowerCase s) "obsolete")
  | _ => false
  end.


(** The state with another store. *)
Definition with_store (s : remote) (w : world) : world :=
  {| data := data w; isLoading := isLoading w; isSaving := isSaving w;
     error := error w; lastRefreshedAt := lastRefreshedAt w;
     fileName := fileName w; isProcessingFile := isProcessingFile w;
     showClearConfirm := showClearConfirm w; store := s; clock := clock w |}.

(** The ranges requested by [n] successive pages from position [from]. *)
Fixpoint page_calls (n : nat) (from : Z) : list call :=
  match n with
  | O => []
  | S n' => SelectRange from (from + 999) :: page_calls n' (from + 1000)
  end.

(** A store in which no failure is pending: every call succeeds. *)
Definition answering (t : list db_row) (m : option Z) (l : list call) : remote :=
  {| table := t; meta := m; faults := []; log := l |}.




(** What the data model promises of an ingested record: a status of the
    enumeration and a recognized area. *)
Definition ingested (e : equipment) : Prop :=
  is_valid_status (status e) = true /\ exists a, In a AREAS /\ area e = VStr a.

(** The in-memory record set is absent or non-empty. *)
Definition data_ok (d : option (list equipment)) : Prop := d <> Some [].

End Spec.

(** ** Further notions used in the statements *)

Module Notions.
Import JS JSDate Dates Ingest Store Hook Views Charts.

(** A call that reads. *)
Definition is_read (c : call) : bool :=
  match c with
  | SelectMeta | SelectRange _ _ => true
  | _ => false
  end.

(** [s'] is [s] after some reads: same tables, and only reads added to the
    log. *)
Definition reads_only (s s' : remote) : Prop :=
  table s' = table s /\ meta s' = meta s /\
  exists cs, log s' = log s ++ cs /\ forallb is_read cs = true.

(** The first and the last character of a string. *)
Definition first_char (s : string) : option ascii :=
  match s with
  | EmptyString => None
  | String c _ => Some c
  end.

Fixpoint last_char (s : string) : option ascii :=
  match s with
  | EmptyString => None
  | String c EmptyString => Some c
  | String _ s' => last_char s'
  end.

(** A string without white space at either end. *)
Definition trimmed (s : string) : Prop :=
  (forall c, first_char s = Some c -> is_space c = false) /\
  (forall c, last_char s = Some c -> is_space c = false).

(** The strings of digits and of letters. *)
Definition digits (s : string) : Prop :=
  forallb is_digit (list_ascii_of_string s) = true.

Definition letters (s : string) : Prop :=
  forallb is_alpha (list_ascii_of_string s) = true.

(** Sum of a list of integers. *)
Definition sum_Z (l : list Z) : Z := fold_right Z.add 0 l.

(** Every record has a status of the enumeration. *)
Definition valid_statuses (l : list equipment) : Prop :=
  Forall (fun r => is_valid_status (status r) = true) l.

(** Every record carries one of the recognized areas. *)
Definition recognized (l : list equipment) : Prop :=
  Forall (fun r => exists a, In a AREAS /\ area r = VStr a) l.

(** The records of area [a]. *)
Definition in_area (a : string) (l : list equipment) : list equipment :=
  List.filter (fun x => is_str (area x) a) l.

(** The entry of an area, when it has records. *)
Definition entry_of (areaData : list equipment) (a : string) : list area_entry :=
  if 0 <? Z.of_nat (length (in_area a areaData)) then
    [{| area_name := a;
        area_Healthy := count_status "Healthy" (in_area a areaData);
        area_Caution := count_status "Caution" (in_area a areaData);
        area_Warning := count_status "Warning" (in_area a areaData);
        area_total := Z.of_nat (length (in_area a areaData)) |}]
  else [].

(** The obsolescence condition as a boolean test. *)
Definition aging_b (r : equipment) : bool :=
  negb (is_str (status r) "Healthy") &&
  match alarmDescription r with
  | VStr s => negb (String.eqb s "") && includes (toLowerCase s) "obsolete"
  | _ => false
  end.

(** A record that is not healthy and has an alarm description. *)
Definition flagged_b (r : equipment) : bool :=
  negb (is_str (status r) "Healthy") &&
  match alarmDescription r with
  | VStr s => negb (String.eqb s "")
  | _ => false
  end.

(** The property key under which a record is grouped. *)
Definition key_of (show : value -> string) (r : equipment) : string :=
  to_str show (equipmentType r).


End Notions.

(** ** Concrete inputs for the examples *)

Module Fixtures.
Import JS JSDate Dates Ingest Store Hook Views.

(** A record with the given area, status, alarm text and notification
    date. *)
Definition sample (a : string) (st : string) (alarm : string) (d : value) : equipment := {|
  area := VStr a; equipmentType := VStr "Transmitter"; description := VStr "";
  functionalLocation := VStr "FL-1"; criticality := VStr ""; status := VStr st;
  alarmDescription := VStr alarm; rectification := VStr ""; notificationDate := d
|}.

(** A store with the given table and pending call outcomes. *)
Definition store_with (t : list db_row) (fs : list (option string)) : remote :=
  {| table := t; meta := None; faults := fs; log := [] |}.

(** A row with a status outside the enumeration and a numeric equipment
    type. *)
Definition bad_row : row :=
  {[ "Status" := VStr "Unknown"; "Equipment Type" := VNum 3051 ]}.

(** The row of Scenario A. *)
Definition good_row : row :=
  {[ "Status" := VStr "Warning"; "Equipment Type" := VStr "Transmitter";
     "Functional Location" := VStr "FL-1"; "Alarm Description" := VStr "High alarm";
     "Notification Date" := VStr "15-Nov-2025" ]}.

(** A workbook whose sheet holds the valid row followed by the bad one. *)
Definition bad_workbook : workbook :=
  {| SheetNames := ["Ammonia"]; Sheets := {[ "Ammonia" := [good_row; bad_row] ]} |}.

(** Scenario C: a sheet whose only row has the status "Unknown". *)
Definition unknown_row : row := {[ "Status" := VStr "Unknown" ]}.

(** The workbook of Scenario C. *)
Definition unknown_workbook : workbook :=
  {| SheetNames := ["Ammonia"]; Sheets := {[ "Ammonia" := [unknown_row] ]} |}.

(** Four records: a Caution alert, a Healthy record, a Warning alert and a
    Warning record flagged obsolete. *)
Definition sample_set : list equipment :=
  [sample "Utility" "Caution" "Drift" (VStr "3-Jan-2025");
   sample "Ammonia" "Healthy" "" (VStr "");
   sample "Ammonia" "Warning" "High alarm" (VStr "15-Nov-2025");
   sample "Urea" "Warning" "Component OBSOLETE - replace" (VNum 45976)].

(** No filter selected. *)
Definition all_selected : selection :=
  {| selectedArea := "All"; selectedEquipment := "All"; selectedStatus := "All" |}.

End Fixtures.

(** ** Proof tactics *)

(** Evaluation of a state transformer on a state whose fields are named. *)
Ltac open_world w :=
  let s := fresh "s" in
  destruct w as [? ? ? ? ? ? ? ? s ?]; destruct s as [? ? ? ?]; simpl in *; subst.

(** Replaces the table lookups on closed arguments by their values. *)
Ltac eval_months :=
  repeat match goal with
  | |- context [JSDate.DaysBeforeMonth ?b ?e] =>
      let v := eval vm_compute in (JSDate.DaysBeforeMonth b e) in
      change (JSDate.DaysBeforeMonth b e) with v
  | H : context [JSDate.DaysBeforeMonth ?b ?e] |- _ =>
      let v := eval vm_compute in (JSDate.DaysBeforeMonth b e) in
      change (JSDate.DaysBeforeMonth b e) with v in H
  end.

(** * Properties *)

(** ** The [Date] model on known values *)

Example iso_epoch : JSDate.toISOString 0 = "1970-01-01T00:00:00.000Z".
Proof. reflexivity. Qed.
Example iso_2025 : JSDate.toISOString 1763164800000 = "2025-11-15T00:00:00.000Z".
Proof. reflexivity. Qed.
Example iso_neg : JSDate.toISOString (-1) = "1969-12-31T23:59:59.999Z".
Proof. reflexivity. Qed.
Example iso_big : JSDate.toISOString 8640000000000000 = "+275760-09-13T00:00:00.000Z".
Proof. reflexivity. Qed.
Example iso_small : JSDate.toISOString (-8640000000000000) = "-271821-04-20T00:00:00.000Z".
Proof. reflexivity. Qed.
Example iso_leap : JSDate.toISOString (JSDate.MakeDay 2024 1 29 * 86400000) = "2024-02-29T00:00:00.000Z".
Proof. reflexivity. Qed.
Example parse_serial_45976 :
  Dates.parseDate Dates.host_kl (JS.VNum 45976) = JS.VStr "2025-11-15".
Proof. reflexivity. Qed.
Example parse_str_utc :
  Dates.parseDate Dates.host_utc (JS.VStr "15-Nov-2025") = JS.VStr "2025-11-15".
Proof. reflexivity. Qed.
Example parse_str_ny :
  Dates.parseDate Dates.host_ny (JS.VStr "5-nOV-2025") = JS.VStr "2025-11-05".
Proof. reflexivity. Qed.
Example parse_str_kl :
  Dates.parseDate Dates.host_kl (JS.VStr "15-Nov-2025") = JS.VStr "2025-11-14".
Proof. reflexivity. Qed.
Example format_str_kl :
  Dates.formatDate Dates.host_kl (JS.VStr "15-Nov-2025") = JS.VStr "Nov-25".
Proof. reflexivity. Qed.
Example format_garbage :
  Dates.formatDate Dates.host_kl (JS.VStr "soon") = JS.VStr "soon".
Proof. reflexivity. Qed.
Example parse_zero : Dates.parseDate Dates.host_kl (JS.VNum 0) = JS.VNull.
Proof. reflexivity. Qed.

(** ** Persistence Synchronizer: [saveEquipment] *)

Module SaveFacts.
Import JS JSDate Dates Ingest Store Hook Spec Fixtures.

(** What a save that reaches the store does when its first call, the
    delete, fails. *)
Lemma save_delete_fails (h : host) (r : equipment) (rs : list equipment)
    (w : world) (msg : string) (fs : list (option string)) :
  faults (store w) = Some msg :: fs ->
  saveEquipment true h (Some (r :: rs)) w =
    (false,
     {| data := data w; isLoading := isLoading w; isSaving := false;
        error := Some (String.append "Failed to save data: " msg);
        lastRefreshedAt := lastRefreshedAt w; fileName := fileName w;
        isProcessingFile := isProcessingFile w;
        showClearConfirm := showClearConfirm w;
        store := {| table := table (store w); meta := meta (store w);
                    faults := fs; log := log (store w) ++ [DeleteAll] |};
        clock := clock w |}).
Proof.
  intros Hf. open_world w. reflexivity.
Qed.

(** A delete that fails is a first pending outcome that is a failure. *)
Lemma delete_fails_inv (s : remote) (msg : string) :
  fst (delete_all s) = Some msg -> exists fs, faults s = Some msg :: fs.
Proof.
  unfold delete_all, attempt. destruct (faults s) as [|[m|] fs]; simpl; intros H.
  - discriminate.
  - injection H as ->. now exists fs.
  - discriminate.
Qed.

(** C1. When the delete call of [saveEquipment] fails, the only call made to
    the store is that delete (no insert is attempted), the operation returns
    [false] with the store's message in [error], and the in-memory record
    set and the table are what they were. *)
Theorem save_delete_failure_aborts (h : host) (records : list equipment)
    (w : world) (msg : string) :
  records <> [] ->
  fst (delete_all (store w)) = Some msg ->
  fst (saveEquipment true h (Some records) w) = false /\
  data (snd (saveEquipment true h (Some records) w)) = data w /\
  (exists calls,
     log (store (snd (saveEquipment true h (Some records) w))) = log (store w) ++ calls /\
     calls = [DeleteAll] /\
     forall rows, ~ In (Insert rows) calls) /\
  table (store (snd (saveEquipment true h (Some records) w))) = table (store w) /\
  error (snd (saveEquipment true h (Some records) w)) =
    Some (String.append "Failed to save data: " msg).
Proof.
  intros Hne Hdel.
  destruct records as [|r rs]; [congruence|].
  destruct (delete_fails_inv _ _ Hdel) as [fs Hf].
  rewrite (save_delete_fails h r rs w msg fs Hf). simpl.
  repeat split; try reflexivity.
  exists [DeleteAll]. repeat split.
  intros rows [Hin|[]]. discriminate.
Qed.

Lemma save_delete_failure_aborts_witness :
  let records := [sample "Ammonia" "Warning" "High alarm" (VStr "15-Nov-2025")] in
  let w := initial (store_with [] [Some "connection lost"]) 0 in
  fst (saveEquipment true host_kl (Some records) w) = false /\
  data (snd (saveEquipment true host_kl (Some records) w)) = data w.
Proof.
  intros records w.
  pose proof (save_delete_failure_aborts host_kl records w "connection lost") as H.
  destruct H as (H1 & H2 & _).
  - discriminate.
  - reflexivity.
  - split; assumption.
Defined.

(** C3. Saving an absent or an empty record list fails validation: the
    result is [false], [error] is "No data to save.", and neither the remote
    store (its tables and its call log) nor the in-memory record set is
    touched. *)
Theorem save_empty_rejected (h : host) (w : world) :
  (fst (saveEquipment true h None w) = false /\
   error (snd (saveEquipment true h None w)) = Some "No data to save." /\
   store (snd (saveEquipment true h None w)) = store w /\
   data (snd (saveEquipment true h None w)) = data w) /\
  (fst (saveEquipment true h (Some []) w) = false /\
   error (snd (saveEquipment true h (Some []) w)) = Some "No data to save." /\
   store (snd (saveEquipment true h (Some []) w)) = store w /\
   data (snd (saveEquipment true h (Some []) w)) = data w).
Proof.
  open_world w. repeat split.
Qed.

(** Without a configured store the same inputs are refused too, before
    anything else is looked at. *)
Lemma save_unconfigured (h : host) (e : option (list equipment)) (w : world) :
  fst (saveEquipment false h e w) = false /\
  store (snd (saveEquipment false h e w)) = store w /\
  data (snd (saveEquipment false h e w)) = data w.
Proof.
  open_world w. repeat split.
Qed.

(** C4. When delete and insert succeed and the metadata upsert fails, the
    save still returns [true]: the table holds the inserted rows, the
    in-memory record set is the input, no error is reported, and only the
    refresh timestamp (in memory and in the store) stays what it was. *)
Theorem save_meta_failure_tolerated (h : host) (records : list equipment)
    (w : world) (msg : string) (fs : list (option string)) :
  records <> [] ->
  faults (store w) = None :: None :: Some msg :: fs ->
  fst (saveEquipment true h (Some records) w) = true /\
  data (snd (saveEquipment true h (Some records) w)) = Some records /\
  table (store (snd (saveEquipment true h (Some records) w))) = map (toDb h) records /\
  log (store (snd (saveEquipment true h (Some records) w))) =
    log (store w) ++ [DeleteAll; Insert (map (toDb h) records); UpsertMeta (clock w)] /\
  error (snd (saveEquipment true h (Some records) w)) = None /\
  isSaving (snd (saveEquipment true h (Some records) w)) = false /\
  meta (store (snd (saveEquipment true h (Some records) w))) = meta (store w) /\
  lastRefreshedAt (snd (saveEquipment true h (Some records) w)) = lastRefreshedAt w.
Proof.
  intros Hne Hf.
  destruct records as [|r rs]; [congruence|].
  open_world w. repeat split.
  simpl. now rewrite <- !app_assoc.
Qed.

Lemma save_meta_failure_tolerated_witness :
  let records := [sample "Ammonia" "Warning" "High alarm" (VStr "15-Nov-2025")] in
  let w := initial (store_with [] [None; None; Some "meta table missing"]) 7 in
  fst (saveEquipment true host_kl (Some records) w) = true /\
  data (snd (saveEquipment true host_kl (Some records) w)) = Some records.
Proof.
  intros records w.
  pose proof (save_meta_failure_tolerated host_kl records w "meta table missing" []) as H.
  destruct H as (H1 & H2 & _).
  - discriminate.
  - reflexivity.
  - split; assumption.
Defined.

(** For comparison, the same save with a metadata upsert that succeeds. *)
Lemma save_success (h : host) (records : list equipment) (w : world)
    (fs : list (option string)) :
  records <> [] ->
  faults (store w) = [] \/ faults (store w) = [None] \/ faults (store w) = [None; None]
    \/ faults (store w) = None :: None :: None :: fs ->
  fst (saveEquipment true h (Some records) w) = true /\
  data (snd (saveEquipment true h (Some records) w)) = Some records /\
  table (store (snd (saveEquipment true h (Some records) w))) = map (toDb h) records /\
  meta (store (snd (saveEquipment true h (Some records) w))) = Some (clock w) /\
  lastRefreshedAt (snd (saveEquipment true h (Some records) w)) = Some (clock w).
Proof.
  intros Hne Hf.
  destruct records as [|r rs]; [congruence|].
  open_world w. destruct Hf as [->|[->|[->| ->]]]; repeat split.
Qed.

(** The caller of the save, [handleFileUpload], does not keep the previous
    record set when the save fails: it shows the uploaded records ("still
    show the data locally even if save failed"). *)
Lemma upload_after_failed_save (h : host) (name : string) (wb : workbook)
    (r : equipment) (rs : list equipment) (w : world) (msg : string)
    (fs : list (option string)) :
  ingest wb = Ok (r :: rs) ->
  faults (store w) = Some msg :: fs ->
  data (snd (handleFileUpload true h (Some (name, Ok wb)) w)) = Some (r :: rs) /\
  log (store (snd (handleFileUpload true h (Some (name, Ok wb)) w)))
    = log (store w) ++ [DeleteAll].
Proof.
  intros Hi Hf. unfold handleFileUpload. cbn [bind]. rewrite Hi.
  open_world w. split; reflexivity.
Qed.

(** [saveEquipment] and [clearAllData] keep the record set absent or
    non-empty, whatever the store answers. *)
Lemma save_data_ok (c : bool) (h : host) (e : option (list equipment)) (w : world) :
  data_ok (data w) -> data_ok (data (snd (saveEquipment c h e w))).
Proof.
  unfold data_ok. intros Hd.
  destruct c; [|now destruct (save_unconfigured h e w) as (_ & _ & ->)].
  destruct e as [[|r rs]|]; open_world w; try exact Hd.
  destruct faults0 as [|[m|] [|[m'|] [|[m''|] fs]]]; cbn; try exact Hd; discriminate.
Qed.

Lemma clear_data_ok (c : bool) (w : world) :
  data_ok (data w) -> data_ok (data (snd (clearAllData c w))).
Proof.
  unfold data_ok. intros Hd. open_world w.
  destruct c; cbn; [|exact Hd].
  destruct faults0 as [|[m|] fs]; cbn; try exact Hd; discriminate.
Qed.

End SaveFacts.

(** ** Record Mapper and Ingestion Pipeline *)

Module IngestFacts.
Import JS JSDate Dates Ingest Store Hook Spec Fixtures.

(** The default "Unknown" does not change whether a status is accepted. *)
Lemma default_status_valid (v : value) :
  is_valid_status (or_else v (VStr "Unknown")) = is_valid_status v.
Proof.
  unfold or_else. destruct (truthy v) eqn:Ht; [reflexivity|].
  destruct v as [| |b|n|s|t]; simpl in Ht; try reflexivity; try discriminate.
  apply negb_false_iff, String.eqb_eq in Ht. subst s. reflexivity.
Qed.

(** A row whose [Status] is absent or not one of the three values yields no
    record, whatever else it holds. *)
Lemma mapRow_invalid_status (sheetName : string) (r : row) (e : equipment) :
  is_valid_status (get r "Status") = false ->
  mapRow sheetName r <> Ok (Some e).
Proof.
  intros Hs. unfold mapRow.
  rewrite default_status_valid, Hs, andb_false_r.
  destruct (trim _); simpl; congruence.
Qed.

(** When the equipment type cell that the mapper picks is text (or both
    headers are absent or empty, which picks "Unknown"), such a row is
    dropped without an exception. *)
Lemma mapRow_rejects_text (sheetName : string) (r : row) (s : string) :
  is_valid_status (get r "Status") = false ->
  or_else (or_else (get r "Equiment Type") (get r "Equipment Type")) (VStr "Unknown") = VStr s ->
  mapRow sheetName r = Ok None.
Proof.
  intros Hs Ht. unfold mapRow.
  rewrite default_status_valid, Hs, andb_false_r, Ht. reflexivity.
Qed.

(** An accepted row becomes a record of its sheet with a status of the
    enumeration. *)
Lemma mapRow_accepts (sheetName : string) (r : row) (e : equipment) :
  mapRow sheetName r = Ok (Some e) ->
  is_valid_status (status e) = true /\ area e = VStr sheetName.
Proof.
  unfold mapRow. destruct (trim _) as [t|msg]; cbn [bind]; [|discriminate].
  destruct (truthy _ && is_valid_status _) eqn:E; [|discriminate].
  intros [= <-]. cbn [status area].
  apply andb_true_iff in E as [_ E]. now split.
Qed.

Lemma mapRows_ingested (sheetName : string) (rows : list row) :
  In sheetName AREAS ->
  forall acc out,
    Forall ingested acc -> mapRows sheetName rows acc = Ok out -> Forall ingested out.
Proof.
  intros Hs. induction rows as [|r rows IH]; intros acc out Hacc; cbn [mapRows].
  - now intros [= <-].
  - destruct (mapRow sheetName r) as [[e|]|msg] eqn:E; cbn [bind]; [| |discriminate].
    + apply IH. apply Forall_app. split; [exact Hacc|].
      constructor; [|constructor].
      destruct (mapRow_accepts _ _ _ E) as [Hv Ha]. split; [exact Hv|].
      now exists sheetName.
    + now apply IH.
Qed.

Lemma ingestAreas_ingested (wb : workbook) (areas : list string) :
  (forall a, In a areas -> In a AREAS) ->
  forall acc out,
    Forall ingested acc -> ingestAreas wb areas acc = Ok out -> Forall ingested out.
Proof.
  induction areas as [|a areas IH]; intros Hin acc out Hacc; cbn [ingestAreas].
  - now intros [= <-].
  - assert (Hin' : forall x, In x areas -> In x AREAS) by (intros x Hx; apply Hin; now right).
    destruct (has_sheet wb a); [|now apply IH].
    destruct (mapRows a (sheet_rows wb a) acc) as [acc'|msg] eqn:E; cbn [bind]; [|discriminate].
    apply IH; [exact Hin'|].
    apply (mapRows_ingested a (sheet_rows wb a)) with (acc := acc); [|exact Hacc|exact E].
    apply Hin. now left.
Qed.

(** Every record that the ingestion produces has a status of the
    enumeration and one of the recognized areas. *)
Lemma ingest_ingested (wb : workbook) (out : list equipment) :
  ingest wb = Ok out -> Forall ingested out.
Proof.
  unfold ingest. apply ingestAreas_ingested; [auto|constructor].
Qed.

(** C5. The mapper trims the equipment type before it looks at the status:
    on a row whose status is not in the enumeration and whose equipment type
    cell is a number, [trim] throws, and the exception aborts the whole
    ingestion instead of dropping the row. *)
Theorem mapRow_throws_on_numeric_type :
  is_valid_status (get bad_row "Status") = false /\
  mapRow "Ammonia" bad_row = Throw "TypeError: trim is not a function" /\
  ingest bad_workbook = Throw "TypeError: trim is not a function".
Proof.
  vm_compute. repeat split.
Qed.

(** The handler catches the exception: nothing is shown and nothing is
    saved, the valid row included. *)
Lemma upload_bad_workbook (c : bool) (h : host) (w : world) :
  data (snd (handleFileUpload c h (Some ("export.xlsx", Ok bad_workbook)) w)) = data w /\
  store (snd (handleFileUpload c h (Some ("export.xlsx", Ok bad_workbook)) w)) = store w.
Proof.
  unfold handleFileUpload.
  replace (bind (Ok bad_workbook) ingest)
    with (@Throw (list equipment) "TypeError: trim is not a function")
    by (vm_compute; reflexivity).
  open_world w. split; reflexivity.
Qed.

Example scenario_A :
  mapRow "Ammonia" good_row =
    Ok (Some {| area := VStr "Ammonia"; equipmentType := VStr "Transmitter";
                description := VStr ""; functionalLocation := VStr "FL-1";
                criticality := VStr ""; status := VStr "Warning";
                alarmDescription := VStr "High alarm"; rectification := VStr "";
                notificationDate := VStr "15-Nov-2025" |}).
Proof. vm_compute. reflexivity. Qed.

Example scenario_C : ingest unknown_workbook = Ok [].
Proof. vm_compute. reflexivity. Qed.

(** C9. An upload whose ingestion accepts no row stores the empty sequence
    in [data]: the handler takes the branch "no store, just set local
    state", which sets [allData] as it is. *)
Theorem upload_no_rows_sets_empty (c : bool) (h : host) (name : string)
    (wb : workbook) (w : world) :
  ingest wb = Ok [] ->
  data (snd (handleFileUpload c h (Some (name, Ok wb)) w)) = Some [].
Proof.
  intros Hi. unfold handleFileUpload. simpl bind. rewrite Hi.
  open_world w. destruct c; reflexivity.
Qed.

Lemma upload_no_rows_sets_empty_witness :
  ingest unknown_workbook = Ok [] /\
  data (snd (handleFileUpload true host_kl (Some ("export.xlsx", Ok unknown_workbook))
               (initial (store_with [] []) 0))) = Some [].
Proof.
  split.
  - vm_compute. reflexivity.
  - apply (upload_no_rows_sets_empty true host_kl "export.xlsx" unknown_workbook).
    vm_compute. reflexivity.
Defined.

End IngestFacts.

(** ** The calendar of the [Date] model *)

Module CalendarFacts.
Import JS JSDate.

Lemma mod_mod_divides (y a b : Z) :
  0 < a -> 0 < b -> y mod (a * b) = 0 -> y mod a = 0.
Proof.
  intros Ha Hb H. rewrite Z.rem_mul_r in H by lia.
  pose proof (Z.mod_pos_bound y a ltac:(lia)).
  pose proof (Z.mod_pos_bound (y / a) b ltac:(lia)). nia.
Qed.

Lemma step_div (y n : Z) :
  0 < n -> (y + 1) / n = y / n + (if (y + 1) mod n =? 0 then 1 else 0).
Proof.
  intros Hn. destruct ((y + 1) mod n =? 0) eqn:E;
  rewrite ?Z.eqb_eq, ?Z.eqb_neq in E; Z.div_mod_to_equations; nia.
Qed.

(** A year is followed by the next after its 365 or 366 days. *)
Lemma DayFromYear_succ (y : Z) : DayFromYear (y + 1) = DayFromYear y + DaysInYear y.
Proof.
  unfold DayFromYear, DaysInYear, is_leap.
  replace (y + 1 - 1969) with (y - 1969 + 1) by lia.
  replace (y + 1 - 1901) with (y - 1901 + 1) by lia.
  replace (y + 1 - 1601) with (y - 1601 + 1) by lia.
  rewrite !step_div by lia.
  replace ((y - 1969 + 1) mod 4) with (y mod 4)
    by (replace (y - 1969 + 1) with (y + (-492) * 4) by lia; now rewrite Z.mod_add).
  replace ((y - 1901 + 1) mod 100) with (y mod 100)
    by (replace (y - 1901 + 1) with (y + (-19) * 100) by lia; now rewrite Z.mod_add).
  replace ((y - 1601 + 1) mod 400) with (y mod 400)
    by (replace (y - 1601 + 1) with (y + (-4) * 400) by lia; now rewrite Z.mod_add).
  pose proof (mod_mod_divides y 100 4 ltac:(lia) ltac:(lia)) as H1.
  pose proof (mod_mod_divides y 4 25 ltac:(lia) ltac:(lia)) as H2.
  change (100 * 4) with 400 in H1. change (4 * 25) with 100 in H2.
  destruct (y mod 4 =? 0) eqn:H4; destruct (y mod 100 =? 0) eqn:H100;
  destruct (y mod 400 =? 0) eqn:H400; cbn [andb orb negb];
  rewrite ?Z.eqb_eq, ?Z.eqb_neq in *; lia.
Qed.

Lemma DaysInYear_range (y : Z) : 365 <= DaysInYear y <= 366.
Proof. unfold DaysInYear. destruct (is_leap y); lia. Qed.

(** The day number of a year stays within a day and a half of the mean
    Gregorian year (146097 days in 400 years). *)
Lemma DayFromYear_bounds (y : Z) :
  146097 * (y - 1970) - 600 <= 400 * DayFromYear y <= 146097 * (y - 1970) + 600.
Proof.
  unfold DayFromYear. Z.div_mod_to_equations. lia.
Qed.

Lemma DayFromYear_lt (y y' : Z) : y < y' -> DayFromYear y < DayFromYear y'.
Proof.
  intros H. replace y' with (y + 1 + (y' - y - 1)) by lia.
  assert (Hk : 0 <= y' - y - 1) by lia. revert Hk.
  generalize (y' - y - 1). intros k Hk. pattern k.
  apply natlike_ind; [| |exact Hk].
  - rewrite Z.add_0_r, DayFromYear_succ. pose proof (DaysInYear_range y). lia.
  - intros x Hx IH. replace (y + 1 + Z.succ x) with (y + 1 + x + 1) by lia.
    rewrite DayFromYear_succ. pose proof (DaysInYear_range (y + 1 + x)). lia.
Qed.

(** [YearFromDay d] is the year that contains day [d]. *)
Lemma YearFromDay_spec (d : Z) :
  DayFromYear (YearFromDay d) <= d < DayFromYear (YearFromDay d + 1).
Proof.
  unfold YearFromDay.
  set (y := 1970 + d * 400 / 146097).
  pose proof (DayFromYear_succ y) as S0.
  pose proof (DayFromYear_succ (y + 1)) as S1.
  pose proof (DayFromYear_succ (y - 1)) as Sm.
  replace (y - 1 + 1) with y in Sm by lia.
  pose proof (DayFromYear_bounds (y - 1)).
  pose proof (DayFromYear_bounds (y + 2)).
  replace (y + 1 + 1) with (y + 2) in * by lia.
  pose proof (DaysInYear_range y). pose proof (DaysInYear_range (y + 1)).
  pose proof (DaysInYear_range (y - 1)).
  assert (Hy : 146097 * (y - 1970) <= 400 * d < 146097 * (y - 1970) + 146097).
  { subst y. Z.div_mod_to_equations. lia. }
  destruct (DayFromYear (y + 1) <=? d) eqn:E1; [apply Z.leb_le in E1|apply Z.leb_gt in E1].
  - split; [lia|]. replace (y + 1 + 1) with (y + 2) by lia. lia.
  - destruct (DayFromYear y <=? d) eqn:E0; [apply Z.leb_le in E0|apply Z.leb_gt in E0].
    + lia.
    + replace (y - 1 + 1) with y by lia. split; [|lia]. lia.
Qed.

(** It is the only such year, hence the largest [y] with
    [DayFromYear y <= d]. *)
Lemma YearFromDay_unique (d y : Z) :
  DayFromYear y <= d < DayFromYear (y + 1) -> YearFromDay d = y.
Proof.
  intros [Hl Hu]. pose proof (YearFromDay_spec d) as [Hl' Hu'].
  destruct (Z.lt_trichotomy (YearFromDay d) y) as [Hlt|[Heq|Hgt]]; [|exact Heq|].
  - assert (DayFromYear (YearFromDay d + 1) <= DayFromYear y).
    { destruct (Z.eq_dec (YearFromDay d + 1) y) as [->|]; [lia|].
      apply Z.lt_le_incl, DayFromYear_lt. lia. }
    lia.
  - assert (DayFromYear (y + 1) <= DayFromYear (YearFromDay d)).
    { destruct (Z.eq_dec (y + 1) (YearFromDay d)) as [->|]; [lia|].
      apply Z.lt_le_incl, DayFromYear_lt. lia. }
    lia.
Qed.

Lemma DayWithinYear_range (d : Z) :
  0 <= DayWithinYear d < DaysInYear (YearFromDay d).
Proof.
  unfold DayWithinYear. pose proof (YearFromDay_spec d).
  rewrite DayFromYear_succ in H. lia.
Qed.

(** The month of a day is the one whose days frame its position in the
    year. *)
Lemma MonthFromDay_spec (d : Z) :
  0 <= MonthFromDay d <= 11 /\
  DaysBeforeMonth (is_leap (YearFromDay d)) (MonthFromDay d) <= DayWithinYear d
    < DaysBeforeMonth (is_leap (YearFromDay d)) (MonthFromDay d + 1).
Proof.
  pose proof (DayWithinYear_range d) as Hw.
  unfold MonthFromDay, DaysInYear in *.
  destruct (is_leap (YearFromDay d)); cbn [DaysBeforeMonth] in *;
  repeat match goal with
  | |- context [?a <? ?b] => destruct (Z.ltb_spec a b)
  end;
  repeat match goal with
  | |- context [DaysBeforeMonth ?b (?a + 1)] =>
      let v := eval vm_compute in (a + 1) in change (a + 1) with v
  end; cbn [DaysBeforeMonth]; lia.
Qed.

(** The fields read from a day number form an existing civil date whose day
    number is that day. *)
Lemma civil_of_day_valid (d : Z) :
  valid_civil (YearFromDay d) (MonthFromDay d) (DateFromDay d).
Proof.
  pose proof (MonthFromDay_spec d) as [Hm Hd].
  unfold valid_civil, DaysInMonth, DateFromDay. lia.
Qed.

Lemma MakeDay_of_day (d : Z) :
  MakeDay (YearFromDay d) (MonthFromDay d) (DateFromDay d) = d.
Proof.
  pose proof (MonthFromDay_spec d) as [Hm Hd].
  unfold MakeDay, DateFromDay, DayWithinYear.
  rewrite Z.div_small, Z.mod_small, Z.add_0_r by lia. lia.
Qed.

Lemma month_cases (m : Z) :
  0 <= m <= 11 ->
  m = 0 \/ m = 1 \/ m = 2 \/ m = 3 \/ m = 4 \/ m = 5 \/
  m = 6 \/ m = 7 \/ m = 8 \/ m = 9 \/ m = 10 \/ m = 11.
Proof. lia. Qed.

(** Conversely, the day number of an existing civil date reads back as
    that date. *)
Lemma civil_of_MakeDay (y m d : Z) :
  valid_civil y m d ->
  YearFromDay (MakeDay y m d) = y /\
  MonthFromDay (MakeDay y m d) = m /\
  DateFromDay (MakeDay y m d) = d.
Proof.
  intros [Hm Hd]. unfold DaysInMonth in Hd.
  assert (E : MakeDay y m d = DayFromYear y + DaysBeforeMonth (is_leap y) m + d - 1).
  { unfold MakeDay. now rewrite Z.div_small, Z.mod_small, Z.add_0_r by lia. }
  assert (Hw : 0 <= DaysBeforeMonth (is_leap y) m + d - 1 < DaysInYear y /\
               DaysBeforeMonth (is_leap y) m + d - 1 < DaysBeforeMonth (is_leap y) (m + 1)).
  { unfold DaysInYear.
    destruct (month_cases m Hm) as [->|[->|[->|[->|[->|[->|[->|[->|[->|[->|[->| ->]]]]]]]]]]];
      destruct (is_leap y); eval_months; lia. }
  assert (Hy : YearFromDay (MakeDay y m d) = y).
  { apply YearFromDay_unique. rewrite DayFromYear_succ, E. lia. }
  assert (Hwy : DayWithinYear (MakeDay y m d) = DaysBeforeMonth (is_leap y) m + d - 1).
  { unfold DayWithinYear. rewrite Hy, E. lia. }
  assert (Hmo : MonthFromDay (MakeDay y m d) = m).
  { unfold MonthFromDay. rewrite Hwy, Hy.
    destruct (month_cases m Hm) as [->|[->|[->|[->|[->|[->|[->|[->|[->|[->|[->| ->]]]]]]]]]]];
      destruct (is_leap y); eval_months;
      repeat match goal with
      | |- context [?a <? ?b] => destruct (Z.ltb_spec a b); try lia
      end; reflexivity. }
  split; [exact Hy|]. split; [exact Hmo|].
  unfold DateFromDay. rewrite Hwy, Hy, Hmo. lia.
Qed.

(** The day numbers of the years 100 to 9999 are far inside the range of
    [Date]. *)
Lemma MakeDay_range (y m d : Z) :
  100 <= y <= 9999 -> valid_civil y m d ->
  -700000 <= MakeDay y m d <= 2940000.
Proof.
  intros Hy [Hm Hd]. unfold DaysInMonth in Hd.
  assert (E : MakeDay y m d = DayFromYear y + DaysBeforeMonth (is_leap y) m + d - 1).
  { unfold MakeDay. now rewrite Z.div_small, Z.mod_small, Z.add_0_r by lia. }
  pose proof (DayFromYear_bounds y).
  assert (0 <= DaysBeforeMonth (is_leap y) m + d - 1 < 366).
  { destruct (month_cases m Hm) as [->|[->|[->|[->|[->|[->|[->|[->|[->|[->|[->| ->]]]]]]]]]]];
      destruct (is_leap y); eval_months; lia. }
  lia.
Qed.

End CalendarFacts.

(** ** Date Normalizer *)

Module DateFacts.
Import JS JSDate Dates CalendarFacts Spec Fixtures.

Lemma occurs_append (c : ascii) (a b : string) :
  occurs c (String.append a b) = occurs c a || occurs c b.
Proof.
  induction a as [|x a IH]; simpl; [reflexivity|].
  now rewrite IH, orb_assoc.
Qed.

Lemma before_append (c : ascii) (a r : string) :
  occurs c a = false -> before c (String.append a (String c r)) = a.
Proof.
  induction a as [|x a IH]; simpl; intros H.
  - now rewrite Ascii.eqb_refl.
  - apply orb_false_iff in H as [Hx Ha]. rewrite Hx, IH by assumption. reflexivity.
Qed.

Lemma digit_char_not_T (d : Z) : Ascii.eqb (digit_char d) "T" = false.
Proof.
  unfold digit_char.
  assert (H : (Z.to_nat (d mod 10) < 10)%nat).
  { pose proof (Z.mod_pos_bound d 10 ltac:(lia)). lia. }
  revert H. generalize (Z.to_nat (d mod 10)). intros k H.
  do 10 (destruct k as [|k]; [reflexivity|]). lia.
Qed.

Lemma occurs_pad (w : nat) (n : Z) : occurs "T" (pad w n) = false.
Proof.
  revert n. induction w as [|w IH]; intros n; cbn [pad occurs]; [reflexivity|].
  rewrite occurs_append, IH. cbn [occurs orb]. now rewrite digit_char_not_T.
Qed.

Lemma occurs_iso_date (y m d : Z) : occurs "T" (iso_date y m d) = false.
Proof.
  unfold iso_date, iso_year.
  rewrite occurs_append.
  assert (Hy : occurs "T"
     (if (0 <=? y) && (y <=? 9999) then pad 4 y
      else if y <? 0 then String "-" (pad 6 (- y)) else String "+" (pad 6 y)) = false).
  { destruct ((0 <=? y) && (y <=? 9999)); [apply occurs_pad|].
    destruct (y <? 0); cbn [occurs]; rewrite occurs_pad; reflexivity. }
  rewrite Hy. cbn [occurs orb]. rewrite occurs_append, occurs_pad.
  cbn [occurs orb]. rewrite occurs_pad. reflexivity.
Qed.

(** [date.toISOString().split('T')[0]] is the UTC calendar date. *)
Lemma iso_date_of_time (t : Z) :
  before "T" (toISOString t) =
    iso_date (YearFromDay (Day t)) (MonthFromDay (Day t)) (DateFromDay (Day t)).
Proof.
  unfold toISOString. apply before_append, occurs_iso_date.
Qed.


(** No date, or the Invalid Date: [null] for the store, the value itself
    for display. *)
Lemma no_date_outcome (h : host) (v : value) :
  truthy v = true ->
  date_of_value h v = None \/ date_of_value h v = Some None ->
  parseDate h v = VNull /\ formatDate h v = v.
Proof.
  intros Hv Hd. unfold parseDate, formatDate. rewrite Hv. cbn [negb].
  destruct Hd as [-> | ->]; split; reflexivity.
Qed.




(** The D-MMM-YYYY path of [parseDate]: the local date that the pattern
    yields, printed in UTC. *)
Lemma parseDate_pattern (h : host) (s ds ms ys : string) (m t : Z) :
  match_ddMmmYyyy s = Some (ds, ms, ys) ->
  monthMap !! toLowerCase ms = Some m ->
  of_local h (parseInt ys) m (parseInt ds) = Some t ->
  parseDate h (VStr s) = VStr (before "T" (toISOString t)).
Proof.
  intros Hmatch Hmon Ht.
  destruct s as [|c s]; [discriminate|].
  unfold parseDate. cbn [truthy String.eqb negb date_of_value].
  now rewrite Hmatch, Hmon, Ht.
Qed.

(** At UTC and west of it (up to a day), the local midnight of an existing
    date of the years 100 to 9999 prints as that date. *)
Lemma local_date_west (h : host) (y m d : Z) :
  100 <= y <= 9999 -> valid_civil y m d ->
  - msPerDay < tza h <= 0 ->
  exists t, of_local h y m d = Some t /\ before "T" (toISOString t) = iso_date y m d.
Proof.
  intros Hy Hv Hz. pose proof (MakeDay_range y m d Hy Hv) as Hr.
  unfold msPerDay in *.
  exists (MakeDay y m d * msPerDay - tza h). split.
  - unfold of_local, UTC, TimeClip, msPerDay.
    destruct (Z.leb_spec 0 y); destruct (Z.leb_spec y 99); cbn [andb]; try lia.
    destruct (Z.leb_spec (Z.abs (MakeDay y m d * 86400000 - tza h)) 8640000000000000);
      [reflexivity|lia].
  - rewrite iso_date_of_time.
    assert (E : Day (MakeDay y m d * msPerDay - tza h) = MakeDay y m d).
    { unfold Day, msPerDay. symmetry. apply (Z.div_unique _ _ _ (- tza h)); lia. }
    rewrite E. destruct (civil_of_MakeDay y m d Hv) as (-> & -> & ->). reflexivity.
Qed.

(** East of UTC (up to a day), it prints as the day before. *)
Lemma local_date_east (h : host) (y m d : Z) :
  100 <= y <= 9999 -> valid_civil y m d ->
  0 < tza h <= msPerDay ->
  exists t y' m' d',
    of_local h y m d = Some t /\
    before "T" (toISOString t) = iso_date y' m' d' /\
    valid_civil y' m' d' /\
    MakeDay y' m' d' = MakeDay y m d - 1.
Proof.
  intros Hy Hv Hz. pose proof (MakeDay_range y m d Hy Hv) as Hr.
  unfold msPerDay in *.
  exists (MakeDay y m d * msPerDay - tza h),
    (YearFromDay (MakeDay y m d - 1)), (MonthFromDay (MakeDay y m d - 1)),
    (DateFromDay (MakeDay y m d - 1)).
  split; [|split; [|split]].
  - unfold of_local, UTC, TimeClip, msPerDay.
    destruct (Z.leb_spec 0 y); destruct (Z.leb_spec y 99); cbn [andb]; try lia.
    destruct (Z.leb_spec (Z.abs (MakeDay y m d * 86400000 - tza h)) 8640000000000000);
      [reflexivity|lia].
  - rewrite iso_date_of_time.
    assert (E : Day (MakeDay y m d * msPerDay - tza h) = MakeDay y m d - 1).
    { unfold Day, msPerDay. symmetry.
      apply (Z.div_unique _ _ _ (86400000 - tza h)); lia. }
    now rewrite E.
  - apply civil_of_day_valid.
  - apply MakeDay_of_day.
Qed.

(** C7. East of Greenwich the D-MMM-YYYY path stores the day before the one
    written: [new Date(year, month, day)] is local midnight, which
    [toISOString] prints in UTC.  At UTC+8, "15-Nov-2025" becomes
    "2025-11-14", whatever [Date.parse] the host has; at UTC it is
    "2025-11-15". *)
Theorem parseDate_pattern_east (dp : string -> option Z) :
  match_ddMmmYyyy "15-Nov-2025" = Some ("15", "Nov", "2025") /\
  parseDate {| tza := 8 * 3600000; date_parse := dp |} (VStr "15-Nov-2025")
    = VStr "2025-11-14" /\
  parseDate {| tza := 0; date_parse := dp |} (VStr "15-Nov-2025")
    = VStr "2025-11-15".
Proof.
  repeat split; vm_compute; reflexivity.
Qed.

(** The display formatter reads the local fields back, so the shift does
    not show on screen. *)
Lemma formatDate_pattern_east (dp : string -> option Z) :
  formatDate {| tza := 8 * 3600000; date_parse := dp |} (VStr "15-Nov-2025")
    = VStr "Nov-25".
Proof.
  vm_compute. reflexivity.
Qed.

(** C10. A non-empty value from which no date comes out (it is not a number,
    as a string it neither matches D-MMM-YYYY nor is accepted by the
    generic parser, as a [Date] object it is the Invalid Date) is returned
    unchanged by [formatDate], while [parseDate] returns [null] for it. *)
Theorem formatDate_keeps_unparsable (h : host) (v : value) :
  truthy v = true ->
  (forall n, v <> VNum n) ->
  (forall s, v = VStr s -> match_ddMmmYyyy s = None /\ of_string h s = None) ->
  (forall t, v = VDate t -> t = None) ->
  formatDate h v = v /\ parseDate h v = VNull.
Proof.
  intros Hv Hn Hs Ht.
  assert (Hd : date_of_value h v = None \/ date_of_value h v = Some None).
  { destruct v as [| |b|n|s|t]; cbn [date_of_value].
    - now left.
    - now left.
    - now left.
    - now elim (Hn n).
    - destruct (Hs s eq_refl) as [-> ->]. now right.
    - rewrite (Ht t eq_refl). now right. }
  destruct (no_date_outcome h v Hv Hd). now split.
Qed.

Lemma formatDate_keeps_unparsable_witness :
  formatDate host_kl (VStr "next shutdown") = VStr "next shutdown" /\
  parseDate host_kl (VStr "next shutdown") = VNull.
Proof.
  apply (formatDate_keeps_unparsable host_kl (VStr "next shutdown")).
  - reflexivity.
  - discriminate.
  - intros s [= <-]. split; reflexivity.
  - discriminate.
Defined.

(** The same holds for a string in the D-MMM-YYYY form whose month is not
    one of the twelve abbreviations, when the generic parser rejects it. *)
Example formatDate_unknown_month :
  formatDate host_kl (VStr "15-Xyz-2025") = VStr "15-Xyz-2025" /\
  parseDate host_kl (VStr "15-Xyz-2025") = VNull.
Proof. split; vm_compute; reflexivity. Qed.

End DateFacts.

(** ** Aggregation Engine: the alert list *)

Module ViewFacts.
Import JS Ingest Views Spec Fixtures.

Lemma starts_with_spec (p s : string) :
  starts_with p s = true <-> exists post, s = String.append p post.
Proof.
  revert s. induction p as [|a p IH]; intros s; simpl.
  - split; [intros _; now exists s|reflexivity].
  - destruct s as [|b s].
    + split; [discriminate|intros [post H]; discriminate].
    + rewrite andb_true_iff, IH. split.
      * intros [Hab [post ->]]. apply Ascii.eqb_eq in Hab as ->. now exists post.
      * intros [post [= -> ->]]. split; [apply Ascii.eqb_refl|now exists post].
Qed.

Lemma includes_spec (s p : string) :
  includes s p = true <-> exists pre post, s = String.append pre (String.append p post).
Proof.
  induction s as [|c s IH]; simpl.
  - rewrite orb_false_r, starts_with_spec. split.
    + intros [post H]. now exists EmptyString, post.
    + intros [[|a pre] [post H]]; simpl in H; [now exists post|discriminate].
  - rewrite orb_true_iff, starts_with_spec, IH. split.
    + intros [[post H]|(pre & post & H)].
      * now exists EmptyString, post.
      * exists (String c pre), post. simpl. now rewrite H.
    + intros [[|a pre] [post H]]; simpl in H.
      * left. now exists post.
      * right. injection H as -> ->. now exists pre, post.
Qed.

Lemma is_str_eq (v : value) (s : string) : is_str v s = true <-> v = VStr s.
Proof.
  destruct v; simpl; try (split; [discriminate|intros [=]]).
  rewrite String.eqb_eq. split; [now intros ->|now intros [= ->]].
Qed.


(** On textual alarm descriptions the filter callback does not throw. *)
Lemma filter_alert_total (l : list equipment) :
  Forall (fun r => exists s, alarmDescription r = VStr s) l ->
  filter_r is_alert l = Ok (List.filter alert_b l).
Proof.
  induction 1 as [|r l [s Hs] Hl IH]; [reflexivity|].
  cbn [filter_r List.filter]. rewrite IH.
  assert (E : is_alert r = Ok (alert_b r)).
  { unfold is_alert, alert_b. rewrite Hs. cbn [truthy lower bind].
    destruct (negb (is_str (status r) "Healthy")); [|reflexivity].
    destruct (negb (String.eqb s "")); reflexivity. }
  rewrite E. reflexivity.
Qed.

Lemma Forall_filter {A} (P : A -> Prop) (f : A -> bool) (l : list A) :
  Forall P l -> Forall P (List.filter f l).
Proof.
  rewrite !List.Forall_forall. intros H x Hx. apply filter_In in Hx as [Hx _]. auto.
Qed.








(** On the sample set: the Warning alert, then the Caution alert; the
    Healthy record and the obsolete one are left out. *)
Example alert_list_sample :
  alertItemsAll (Some sample_set) all_selected =
    Ok [sample "Ammonia" "Warning" "High alarm" (VStr "15-Nov-2025");
        sample "Utility" "Caution" "Drift" (VStr "3-Jan-2025")].
Proof. vm_compute. reflexivity. Qed.

(** A numeric alarm description, which the mapper lets through from a
    numeric cell, is outside the typing assumed above: the filter callback
    throws on it. *)
Example alert_list_numeric_alarm :
  alertItemsAll
    (Some [{| area := VStr "Ammonia"; equipmentType := VStr "Valve";
              description := VStr ""; functionalLocation := VStr "";
              criticality := VStr ""; status := VStr "Warning";
              alarmDescription := VNum 17; rectification := VStr "";
              notificationDate := VStr "" |}])
    all_selected
  = Throw "TypeError: toLowerCase is not a function".
Proof. vm_compute. reflexivity. Qed.

End ViewFacts.

(** ** Fetch Service: paging, and the round trip through the store *)

Module FetchFacts.
Import JS JSDate Dates Ingest Store Hook Spec Fixtures.

Lemma remote_call_select (from : Z) (t : list db_row) (m : option Z) (l : list call)
    (w : world) :
  store w = answering t m l ->
  remote_call (select_range from (from + pageSize - 1)) w =
    (Ok (firstn 1000 (skipn (Z.to_nat from) (ordered t))),
     with_store (answering t m (l ++ [SelectRange from (from + 999)])) w).
Proof.
  intros Hs. unfold remote_call, select_range, attempt. rewrite Hs. cbn.
  unfold range, pageSize.
  replace (from + 1000 - 1 - from + 1) with 1000 by lia.
  replace (from + 1000 - 1) with (from + 999) by lia.
  reflexivity.
Qed.

Lemma with_store_twice (s s' : remote) (w : world) :
  with_store s (with_store s' w) = with_store s w.
Proof. reflexivity. Qed.

Lemma store_with_store (s : remote) (w : world) : store (with_store s w) = s.
Proof. reflexivity. Qed.

(** The paging loop on a store that answers: it requests successive pages
    of 1000 rows until one comes back short, and returns the rows from
    [from] on, appended to what it had. *)
Lemma fetch_pages_all (fuel : nat) : forall (from : Z) (acc : list db_row)
    (t : list db_row) (m : option Z) (l : list call) (w : world),
  store w = answering t m l ->
  0 <= from ->
  (length (skipn (Z.to_nat from) (ordered t)) / 1000 < fuel)%nat ->
  fetch_pages fuel from acc w =
    (Some (Ok (acc ++ skipn (Z.to_nat from) (ordered t))),
     with_store
       (answering t m
          (l ++ page_calls (S (length (skipn (Z.to_nat from) (ordered t)) / 1000)) from))
       w).
Proof.
  induction fuel as [|fuel IH]; intros from acc t m l w Hs Hfrom Hfuel; [lia|].
  cbn [fetch_pages]. unfold mbind at 1.
  rewrite (remote_call_select from t m l w Hs).
  set (rest := skipn (Z.to_nat from) (ordered t)) in *.
  destruct (Nat.lt_ge_cases (length rest) 1000) as [Hshort|Hfull].
  - rewrite firstn_all2 by lia.
    destruct (Z.eqb_spec (Z.of_nat (length rest)) pageSize) as [E|_];
      [unfold pageSize in E; lia|].
    rewrite Nat.div_small by exact Hshort. reflexivity.
  - assert (Hlen : length (firstn 1000 rest) = 1000%nat) by (rewrite length_firstn; lia).
    rewrite Hlen.
    destruct (Z.eqb_spec (Z.of_nat 1000) pageSize) as [_|E]; [|now elim E].
    assert (Hskip : skipn (Z.to_nat (from + pageSize)) (ordered t) = skipn 1000 rest).
    { subst rest. rewrite skipn_skipn. f_equal. unfold pageSize. lia. }
    assert (Hdiv : (length rest / 1000 = S (length (skipn 1000 rest) / 1000))%nat).
    { rewrite length_skipn.
      replace (length rest) with (length rest - 1000 + 1 * 1000)%nat at 1 by lia.
      rewrite Nat.div_add by lia. lia. }
    rewrite (IH (from + pageSize) (acc ++ firstn 1000 rest) t m
               (l ++ [SelectRange from (from + 999)])
               (with_store (answering t m (l ++ [SelectRange from (from + 999)])) w)).
    + rewrite Hskip, with_store_twice, <- !app_assoc, firstn_skipn, Hdiv.
      reflexivity.
    + reflexivity.
    + unfold pageSize. lia.
    + rewrite Hskip. lia.
Qed.

(** The paging loop only touches the store. *)
Lemma fetch_pages_frame (fuel : nat) : forall (from : Z) (acc : list db_row) (w : world),
  exists s', snd (fetch_pages fuel from acc w) = with_store s' w.
Proof.
  induction fuel as [|fuel IH]; intros from acc w.
  - exists (store w). destruct w. reflexivity.
  - cbn [fetch_pages]. unfold mbind at 1.
    destruct (remote_call (select_range from (from + pageSize - 1)) w) as [r w1] eqn:E.
    assert (Hw1 : w1 = with_store (store w1) w).
    { unfold remote_call in E. destruct (select_range _ _ (store w)) as [a s1].
      injection E as _ <-. reflexivity. }
    destruct r as [page|msg].
    + destruct (Z.of_nat (length page) =? pageSize).
      * destruct (IH (from + pageSize) (acc ++ page) w1) as [s' Hs'].
        exists s'. rewrite Hs', Hw1. reflexivity.
      * exists (store w1). cbn. exact Hw1.
    + exists (store w1). cbn. exact Hw1.
Qed.

(** [fetchEquipment] keeps the record set absent or non-empty, whatever the
    store answers: it replaces an empty result by [null]. *)
Lemma fetch_data_ok (c : bool) (fuel : nat) (w : world) :
  data_ok (data w) -> data_ok (data (snd (fetchEquipment c fuel w))).
Proof.
  unfold data_ok. intros Hd. destruct c; [|destruct w; exact Hd].
  unfold fetchEquipment. cbn [negb].
  unfold mbind at 1. cbn [setIsLoading]. unfold mbind at 1. cbn [setError].
  unfold mbind at 1.
  match goal with |- context [remote_call select_meta ?w0] =>
    destruct (remote_call select_meta w0) as [mr w1] eqn:E1;
    assert (Hw1 : data w1 = data w)
      by (unfold remote_call in E1; destruct (select_meta _) as [a s1];
          injection E1 as _ <-; reflexivity)
  end.
  unfold mbind at 1.
  destruct (fetch_pages_frame fuel 0 [] w1) as [s' Hs'].
  destruct (fetch_pages fuel 0 [] w1) as [pages w2]. cbn [snd] in Hs'. subst w2.
  destruct pages as [[rows|msg]|].
  - set (td := map fromDb rows).
    assert (Hk : (if 0 <? Z.of_nat (length td) then Some td else None) <> Some []).
    { destruct td as [|x xs]; [cbn; discriminate|].
      destruct (0 <? Z.of_nat (length (x :: xs))); discriminate. }
    destruct mr as [t|]; exact Hk.
  - cbn. now rewrite Hw1.
  - cbn. now rewrite Hw1.
Qed.

Lemma insert_row_perm (x : db_row) (l : list db_row) :
  Permutation (insert_row x l) (x :: l).
Proof.
  induction l as [|y l IH]; cbn [insert_row]; [reflexivity|].
  destruct (after x y); [|reflexivity].
  rewrite IH. apply perm_swap.
Qed.

(** The query returns every row of the table once. *)
Lemma ordered_perm (l : list db_row) : Permutation (ordered l) l.
Proof.
  induction l as [|x l IH]; cbn [ordered]; [reflexivity|].
  rewrite insert_row_perm. now constructor.
Qed.

Lemma ordered_length (l : list db_row) : length (ordered l) = length l.
Proof. apply Permutation_length, ordered_perm. Qed.

(** A fetch on a configured store that answers: one read of the metadata
    row, then the pages; the result is every row of the table, in the order
    of the query, in app format. *)
Lemma fetch_all (fuel : nat) (t : list db_row) (m : option Z) (l : list call)
    (w : world) :
  store w = answering t m l ->
  (length t / 1000 < fuel)%nat ->
  fetchEquipment true fuel w =
    (Some (map fromDb (ordered t)),
     {| data := if 0 <? Z.of_nat (length (map fromDb (ordered t)))
                then Some (map fromDb (ordered t)) else None;
        isLoading := false; isSaving := isSaving w; error := None;
        lastRefreshedAt := match m with Some r => Some r | None => lastRefreshedAt w end;
        fileName := fileName w; isProcessingFile := isProcessingFile w;
        showClearConfirm := showClearConfirm w;
        store := answering t m (l ++ SelectMeta :: page_calls (S (length t / 1000)) 0);
        clock := clock w |}).
Proof.
  intros Hs Hfuel. destruct w as [d il isv e lr fn ip sc st ck].
  cbn [store] in Hs. subst st.
  unfold fetchEquipment. cbn [negb].
  unfold mbind at 1. cbn [setIsLoading].
  unfold mbind at 1. cbn [setError].
  unfold mbind at 1. unfold remote_call at 1, select_meta, attempt.
  cbn [answering store faults table meta log isLoading isSaving data error
       lastRefreshedAt fileName isProcessingFile showClearConfirm clock].
  unfold mbind at 1.
  erewrite (fetch_pages_all fuel 0 [] t m (l ++ [SelectMeta])); cycle 1.
  - reflexivity.
  - lia.
  - change (Z.to_nat 0) with 0%nat. rewrite skipn_O, ordered_length. exact Hfuel.
  - change (Z.to_nat 0) with 0%nat. rewrite skipn_O. cbn [app]. rewrite ordered_length, <- app_assoc. cbn [app].
    destruct m as [r|]; reflexivity.
Qed.

(** Scenario E: without a configured store, no function calls it. *)
Lemma unconfigured_no_call (h : host) (e : option (list equipment)) (fuel : nat) (w : world) :
  store (snd (fetchEquipment false fuel w)) = store w /\
  store (snd (saveEquipment false h e w)) = store w /\
  store (snd (clearAllData false w)) = store w /\
  error (snd (fetchEquipment false fuel w)) = Some not_configured /\
  error (snd (saveEquipment false h e w)) = Some not_configured /\
  error (snd (clearAllData false w)) = Some not_configured.
Proof.
  destruct w. repeat split.
Qed.










(** Two full pages and a partial one: 2001 rows are read with three range
    requests after the metadata read, and all of them come back. *)
Example fetch_three_pages :
  let row0 := toDb host_utc (sample "Ammonia" "Healthy" "" (VStr "")) in
  let w := initial (answering (repeat row0 2001) None []) 0 in
  log (store (snd (fetchEquipment true 3 w)))
    = [SelectMeta; SelectRange 0 999; SelectRange 1000 1999; SelectRange 2000 2999] /\
  option_map (@length equipment) (fst (fetchEquipment true 3 w)) = Some 2001%nat.
Proof. vm_compute. split; reflexivity. Qed.

(** A table of exactly one full page takes a second, empty, page to stop. *)
Example fetch_exact_page :
  let row0 := toDb host_utc (sample "Ammonia" "Healthy" "" (VStr "")) in
  let w := initial (answering (repeat row0 1000) None []) 0 in
  log (store (snd (fetchEquipment true 2 w)))
    = [SelectMeta; SelectRange 0 999; SelectRange 1000 1999].
Proof. vm_compute. reflexivity. Qed.

(** A page request that fails aborts the fetch: the rows already read are
    dropped, the error is reported and [data] is left as it was. *)
Example fetch_page_failure :
  let row0 := toDb host_utc (sample "Ammonia" "Healthy" "" (VStr "")) in
  let w := initial {| table := repeat row0 1500; meta := None;
                      faults := [None; None; Some "timeout"]; log := [] |} 0 in
  fst (fetchEquipment true 3 w) = Some [] /\
  data (snd (fetchEquipment true 3 w)) = None /\
  error (snd (fetchEquipment true 3 w)) = Some "Failed to load data: timeout".
Proof. vm_compute. repeat split; reflexivity. Qed.

End FetchFacts.

(** * Further properties *)

(** ** The hook: fetch, save and clear on any store *)

Module HookProps.
Import JS JSDate Dates Ingest Store Hook Spec Notions Fixtures SaveFacts FetchFacts.

Lemma reads_only_refl (s : remote) : reads_only s s.
Proof.
  repeat split. exists []. split; [now rewrite app_nil_r|reflexivity].
Qed.

Lemma reads_only_trans (a b c : remote) :
  reads_only a b -> reads_only b c -> reads_only a c.
Proof.
  intros (Ht & Hm & cs & Hl & Hr) (Ht' & Hm' & cs' & Hl' & Hr').
  split; [congruence|]. split; [congruence|].
  exists (cs ++ cs'). split.
  - now rewrite Hl', Hl, app_assoc.
  - rewrite forallb_app, Hr, Hr'. reflexivity.
Qed.

Lemma attempt_read (c : call) (s : remote) :
  is_read c = true -> reads_only s (snd (attempt c s)).
Proof.
  intros Hc. unfold attempt.
  destruct (faults s) as [|f fs]; cbn; repeat split;
    exists [c]; cbn; now rewrite Hc.
Qed.

Lemma select_range_read (from to : Z) (s : remote) :
  reads_only s (snd (select_range from to s)) /\
  (forall page, fst (select_range from to s) = Ok page ->
     page = range from to (ordered (table s))).
Proof.
  unfold select_range.
  pose proof (attempt_read (SelectRange from to) s eq_refl) as H.
  destruct (attempt (SelectRange from to) s) as [[msg|] s'] eqn:E; cbn in *.
  - split; [exact H|discriminate].
  - split; [exact H|]. intros page [= <-]. destruct H as (-> & _). reflexivity.
Qed.

Lemma select_meta_read (s : remote) : reads_only s (snd (select_meta s)).
Proof.
  unfold select_meta.
  pose proof (attempt_read SelectMeta s eq_refl) as H.
  destruct (attempt SelectMeta s) as [[msg|] s']; exact H.
Qed.

(** One turn of the paging loop. *)
Lemma fetch_pages_step (fuel : nat) (from : Z) (acc : list db_row) (w : world) :
  fetch_pages (S fuel) from acc w =
    let (r, s1) := select_range from (from + pageSize - 1) (store w) in
    match r with
    | Ok page =>
        if Z.of_nat (length page) =? pageSize
        then fetch_pages fuel (from + pageSize) (acc ++ page) (with_store s1 w)
        else (Some (Ok (acc ++ page)), with_store s1 w)
    | Throw msg => (Some (Throw msg), with_store s1 w)
    end.
Proof.
  cbn [fetch_pages]. unfold mbind, remote_call.
  destruct (select_range from (from + pageSize - 1) (store w)) as [[page|msg] s1];
    [destruct (Z.of_nat (length page) =? pageSize)|]; reflexivity.
Qed.

(** The paging loop in any store: it only reads, it only touches the
    store, and with fuel for one request more than the number of full pages
    left it comes to an end. *)
Lemma fetch_pages_any (fuel : nat) : forall (from : Z) (acc : list db_row) (w : world),
  exists s',
    snd (fetch_pages fuel from acc w) = with_store s' w /\
    reads_only (store w) s' /\
    (0 <= from ->
     (length (skipn (Z.to_nat from) (ordered (table (store w)))) / 1000 < fuel)%nat ->
     fst (fetch_pages fuel from acc w) <> None).
Proof.
  induction fuel as [|fuel IH]; intros from acc w.
  - exists (store w). split; [destruct w; reflexivity|].
    split; [apply reads_only_refl|]. intros _ H. lia.
  - rewrite fetch_pages_step.
    destruct (select_range_read from (from + pageSize - 1) (store w)) as [Hr Hp].
    destruct (select_range from (from + pageSize - 1) (store w)) as [r s1] eqn:E.
    cbn [fst snd] in Hr, Hp.
    destruct r as [page|msg].
    + destruct (Z.eqb_spec (Z.of_nat (length page)) pageSize) as [Hfull|Hshort].
      * destruct (IH (from + pageSize) (acc ++ page) (with_store s1 w)) as (s' & Hs' & Hr' & Hf').
        exists s'. split; [now rewrite Hs'|].
        split; [exact (reads_only_trans _ _ _ Hr Hr')|].
        intros Hfrom Hfuel. apply Hf'; [unfold pageSize; lia|].
        cbn [store with_store]. destruct Hr as (-> & _).
        specialize (Hp page eq_refl). unfold range in Hp.
        replace (Z.to_nat (from + pageSize - 1 - from + 1)) with 1000%nat in Hp
          by (unfold pageSize; lia).
        set (rest := skipn (Z.to_nat from) (ordered (table (store w)))) in *.
        assert (Hlen : (1000 <= length rest)%nat).
        { rewrite Hp, length_firstn in Hfull. unfold pageSize in Hfull. lia. }
        replace (Z.to_nat (from + pageSize)) with (1000 + Z.to_nat from)%nat
          by (unfold pageSize; lia).
        rewrite <- skipn_skipn. fold rest. rewrite length_skipn.
        assert (Hd : (length rest / 1000 = S ((length rest - 1000) / 1000))%nat).
        { replace (length rest) with (length rest - 1000 + 1 * 1000)%nat at 1 by lia.
          rewrite Nat.div_add by lia. lia. }
        lia.
      * exists s1. split; [reflexivity|]. split; [exact Hr|]. discriminate.
    + exists s1. split; [reflexivity|]. split; [exact Hr|]. discriminate.
Qed.

(** When the loop ends on a short page, it has read every row from [from]
    on. *)
Lemma fetch_pages_rows (fuel : nat) : forall (from : Z) (acc rows : list db_row) (w : world),
  0 <= from ->
  fst (fetch_pages fuel from acc w) = Some (Ok rows) ->
  rows = acc ++ skipn (Z.to_nat from) (ordered (table (store w))).
Proof.
  induction fuel as [|fuel IH]; intros from acc rows w Hfrom; [discriminate|].
  rewrite fetch_pages_step.
  destruct (select_range_read from (from + pageSize - 1) (store w)) as [Hr Hp].
  destruct (select_range from (from + pageSize - 1) (store w)) as [[page|msg] s1];
    cbn [fst snd] in Hr, Hp; [|discriminate].
  specialize (Hp page eq_refl). unfold range in Hp.
  replace (Z.to_nat (from + pageSize - 1 - from + 1)) with 1000%nat in Hp
    by (unfold pageSize; lia).
  set (rest := skipn (Z.to_nat from) (ordered (table (store w)))) in *.
  destruct (Z.eqb_spec (Z.of_nat (length page)) pageSize) as [Hfull|Hshort].
  - intros H. apply IH in H; [|unfold pageSize; lia].
    cbn [store with_store] in H. destruct Hr as (Ht & _). rewrite Ht in H.
    replace (Z.to_nat (from + pageSize)) with (1000 + Z.to_nat from)%nat in H
      by (unfold pageSize; lia).
    rewrite <- skipn_skipn in H. fold rest in H.
    rewrite H, Hp, <- app_assoc, firstn_skipn. reflexivity.
  - cbn [fst]. intros [= <-]. f_equal. rewrite Hp. apply firstn_all2.
    rewrite Hp, length_firstn in Hshort. unfold pageSize in Hshort. lia.
Qed.

(** [fetchEquipment] on a configured store, step by step. *)
Lemma fetchEquipment_unfold (fuel : nat) (w : world) :
  fetchEquipment true fuel w =
    let w0 := snd (setError None (snd (setIsLoading true w))) in
    let (metaResult, w1) := remote_call select_meta w0 in
    let (pages, w2) := fetch_pages fuel 0 [] w1 in
    match pages with
    | None => (None, w2)
    | Some (Throw msg) =>
        (Some [],
         snd (setIsLoading false
                (snd (setError (Some (String.append "Failed to load data: " msg)) w2))))
    | Some (Ok rows) =>
        (Some (map fromDb rows),
         snd (setIsLoading false
                (snd (setData (if 0 <? Z.of_nat (length (map fromDb rows))
                               then Some (map fromDb rows) else None)
                        (snd (match metaResult with
                              | Some t => setLastRefreshedAt (Some t)
                              | None => ret tt
                              end w2))))))
    end.
Proof.
  unfold fetchEquipment. cbn [negb]. unfold mbind.
  cbn [setIsLoading setError snd].
  destruct (remote_call select_meta _) as [mr w1].
  destruct (fetch_pages fuel 0 [] w1) as [[[rows|msg]|] w2]; try reflexivity.
  destruct mr; reflexivity.
Qed.

(** X2. A fetch never writes to the store: whatever the store answers,
    the tables are what they were and the calls made are reads. *)
Theorem fetch_never_writes (configured : bool) (fuel : nat) (w : world) :
  reads_only (store w) (store (snd (fetchEquipment configured fuel w))).
Proof.
  destruct configured; [|destruct w; apply reads_only_refl].
  rewrite fetchEquipment_unfold. cbv zeta.
  destruct (remote_call select_meta _) as [mr w1] eqn:E1.
  assert (H1 : reads_only (store w) (store w1)).
  { unfold remote_call in E1. cbn [store setError setIsLoading snd] in E1.
    pose proof (select_meta_read (store w)) as H.
    destruct (select_meta (store w)) as [a s1]. injection E1 as _ <-. exact H. }
  destruct (fetch_pages_any fuel 0 [] w1) as (s' & Hs' & Hr' & _).
  destruct (fetch_pages fuel 0 [] w1) as [pages w2]. cbn [snd] in Hs'. subst w2.
  assert (H2 : reads_only (store w) s') by exact (reads_only_trans _ _ _ H1 Hr').
  destruct pages as [[rows|msg]|]; [destruct mr| |]; exact H2.
Qed.

(** X3. With fuel for one request more than the number of full pages, a
    fetch on a configured store ends, whatever the store answers, in one of
    two ways.  Either every page was read: the result is every row of the
    table in app format, [error] is cleared and [data] is the result, or
    [null] when it is empty.  Or a page request failed: the result is the
    empty list, the rows already read are dropped, [error] carries the
    store's message, and [data] and the refresh time are what they were.
    In both cases [isLoading] is reset. *)
Theorem fetch_outcome (fuel : nat) (w : world) :
  (length (table (store w)) / 1000 < fuel)%nat ->
  exists out,
    fst (fetchEquipment true fuel w) = Some out /\
    isLoading (snd (fetchEquipment true fuel w)) = false /\
    ((error (snd (fetchEquipment true fuel w)) = None /\
      out = map fromDb (ordered (table (store w))) /\
      Permutation out (map fromDb (table (store w))) /\
      data (snd (fetchEquipment true fuel w))
        = match out with [] => None | _ => Some out end) \/
     (exists msg,
        error (snd (fetchEquipment true fuel w))
          = Some (String.append "Failed to load data: " msg) /\
        out = [] /\
        data (snd (fetchEquipment true fuel w)) = data w /\
        lastRefreshedAt (snd (fetchEquipment true fuel w)) = lastRefreshedAt w)).
Proof.
  intros Hfuel. rewrite fetchEquipment_unfold. cbv zeta.
  destruct (remote_call select_meta _) as [mr w1] eqn:E1.
  assert (H1 : exists s1, w1 = with_store s1 (snd (setError None (snd (setIsLoading true w))))
                          /\ reads_only (store w) s1).
  { unfold remote_call in E1. cbn [store setError setIsLoading snd] in E1.
    pose proof (select_meta_read (store w)) as H.
    destruct (select_meta (store w)) as [a s1]. injection E1 as _ <-.
    exists s1. split; [reflexivity|exact H]. }
  destruct H1 as (s1 & -> & (Ht1 & _)).
  set (w1 := with_store s1 _) in *.
  pose proof (fetch_pages_rows fuel 0 [] ) as Hrows.
  destruct (fetch_pages_any fuel 0 [] w1) as (s' & Hs' & _ & Hend).
  specialize (Hend ltac:(lia)).
  change (Z.to_nat 0) with 0%nat in Hend. rewrite skipn_O in Hend.
  assert (Hne : fst (fetch_pages fuel 0 [] w1) <> None).
  { apply Hend. unfold w1. cbn [store with_store]. now rewrite Ht1, ordered_length. }
  specialize (Hrows) with (w := w1).
  destruct (fetch_pages fuel 0 [] w1) as [pages w2]. cbn [fst snd] in *. subst w2.
  destruct pages as [[rows|msg]|]; [| |congruence].
  - specialize (Hrows rows ltac:(lia) eq_refl).
    change (Z.to_nat 0) with 0%nat in Hrows. rewrite skipn_O in Hrows. cbn [app] in Hrows.
    unfold w1 in Hrows. cbn [store with_store] in Hrows. rewrite Ht1 in Hrows. subst rows.
    exists (map fromDb (ordered (table (store w)))).
    split; [reflexivity|]. split; [destruct mr; reflexivity|]. left.
    split; [destruct mr; reflexivity|]. split; [reflexivity|].
    split; [apply Permutation_map, ordered_perm|].
    destruct mr; cbn;
      (destruct (map fromDb (ordered (table (store w)))) as [|x xs]; [reflexivity|];
       cbn [length]; rewrite Nat2Z.inj_succ;
       destruct (Z.ltb_spec 0 (Z.succ (Z.of_nat (length xs)))); [reflexivity|lia]).
  - exists []. split; [reflexivity|]. split; [reflexivity|]. right.
    exists msg. repeat split.
Qed.

Lemma fetch_outcome_witness :
  let w := initial {| table := map (toDb host_utc) sample_set; meta := None;
                      faults := [None; Some "timeout"]; log := [] |} 0 in
  exists out,
    fst (fetchEquipment true 1 w) = Some out /\
    isLoading (snd (fetchEquipment true 1 w)) = false.
Proof.
  intros w. destruct (fetch_outcome 1 w) as (out & H1 & H2 & _).
  - vm_compute. lia.
  - exists out. split; assumption.
Defined.

(** X1. On a configured store that answers every call, a fetch makes one
    read of the metadata row and then requests the ranges [0, 999],
    [1000, 1999], ... one after the other, one range more than the table has
    full pages; it returns the whole table in the order of the query and
    takes the refresh time from the metadata row when there is one. *)
Theorem fetch_request_sequence (fuel : nat) (t : list db_row) (m : option Z)
    (l : list call) (w : world) :
  store w = answering t m l ->
  (length t / 1000 < fuel)%nat ->
  fst (fetchEquipment true fuel w) = Some (map fromDb (ordered t)) /\
  log (store (snd (fetchEquipment true fuel w)))
    = l ++ SelectMeta :: page_calls (S (length t / 1000)) 0 /\
  length (page_calls (S (length t / 1000)) 0) = S (length t / 1000) /\
  lastRefreshedAt (snd (fetchEquipment true fuel w))
    = match m with Some r => Some r | None => lastRefreshedAt w end.
Proof.
  intros Hs Hfuel. rewrite (fetch_all fuel t m l w Hs Hfuel). cbn [fst snd].
  repeat split.
  generalize 0. generalize (S (length t / 1000)).
  induction n as [|n IH]; intros from; cbn [page_calls length]; [reflexivity|].
  now rewrite IH.
Qed.

Lemma fetch_request_sequence_witness :
  let w := initial (answering (map (toDb host_utc) sample_set) (Some 42) []) 0 in
  fst (fetchEquipment true 1 w) = Some (map fromDb (ordered (map (toDb host_utc) sample_set))) /\
  log (store (snd (fetchEquipment true 1 w))) = [SelectMeta; SelectRange 0 999].
Proof.
  intros w.
  destruct (fetch_request_sequence 1 (map (toDb host_utc) sample_set) (Some 42) [] w)
    as (H1 & H2 & _).
  - reflexivity.
  - vm_compute. lia.
  - split; [exact H1|exact H2].
Defined.

(** X4. The metadata row is optional: when its read fails and the page
    reads succeed, the fetch succeeds all the same, with every row, no
    error, and the refresh time left as it was. *)
Theorem fetch_without_metadata (fuel : nat) (t : list db_row) (m : option Z)
    (l : list call) (msg : string) (w : world) :
  store w = {| table := t; meta := m; faults := [Some msg]; log := l |} ->
  (length t / 1000 < fuel)%nat ->
  fst (fetchEquipment true fuel w) = Some (map fromDb (ordered t)) /\
  error (snd (fetchEquipment true fuel w)) = None /\
  lastRefreshedAt (snd (fetchEquipment true fuel w)) = lastRefreshedAt w.
Proof.
  intros Hs Hfuel.
  assert (E : exists w',
    fetchEquipment true fuel w = (Some (map fromDb (ordered t)), w') /\
    error w' = None /\ lastRefreshedAt w' = lastRefreshedAt w).
  { destruct w as [d il isv e lr fn ip sc st ck]. cbn [store] in Hs. subst st.
    rewrite fetchEquipment_unfold. cbv zeta.
    unfold remote_call at 1. cbn [store setError setIsLoading snd].
    cbn [select_meta attempt faults table meta log].
    erewrite (fetch_pages_all fuel 0 [] t m (l ++ [SelectMeta])); cycle 1.
    - reflexivity.
    - lia.
    - change (Z.to_nat 0) with 0%nat. rewrite skipn_O, ordered_length. exact Hfuel.
    - change (Z.to_nat 0) with 0%nat. rewrite skipn_O. cbn [app].
      eexists. split; [reflexivity|]. split; reflexivity. }
  destruct E as (w' & -> & He & Hl). repeat split; assumption.
Qed.

Lemma fetch_without_metadata_witness :
  let w := initial {| table := map (toDb host_utc) sample_set; meta := Some 42;
                      faults := [Some "no such table"]; log := [] |} 0 in
  error (snd (fetchEquipment true 1 w)) = None /\
  lastRefreshedAt (snd (fetchEquipment true 1 w)) = None.
Proof.
  intros w.
  destruct (fetch_without_metadata 1 (map (toDb host_utc) sample_set) (Some 42) []
              "no such table" w) as (_ & H2 & H3).
  - reflexivity.
  - vm_compute. lia.
  - split; [exact H2|exact H3].
Defined.

(** X5. Fetch, save and clear keep the record set absent or non-empty,
    whatever the store answers: when [data] is not the empty list before
    one of them, it is not the empty list after it. *)
Theorem hook_keeps_record_set (configured : bool) (h : host)
    (e : option (list equipment)) (fuel : nat) (w : world) :
  data_ok (data w) ->
  data_ok (data (snd (fetchEquipment configured fuel w))) /\
  data_ok (data (snd (saveEquipment configured h e w))) /\
  data_ok (data (snd (clearAllData configured w))).
Proof.
  intros Hd. split; [now apply fetch_data_ok|].
  split; [now apply save_data_ok|now apply clear_data_ok].
Qed.

Lemma hook_keeps_record_set_witness :
  let w := initial (store_with [] [Some "down"]) 0 in
  data_ok (data (snd (fetchEquipment true 1 w))) /\
  data_ok (data (snd (saveEquipment true host_kl (Some sample_set) w))) /\
  data_ok (data (snd (clearAllData true w))).
Proof.
  intros w. apply (hook_keeps_record_set true host_kl (Some sample_set) 1 w).
  discriminate.
Defined.

(** X6. A save whose delete succeeds and whose insert fails leaves the
    table empty: the old rows are gone and the new ones are not there.  It
    returns [false] with the store's message, makes no metadata call, and
    leaves [data] and the refresh time as they were. *)
Theorem save_insert_failure_empties (h : host) (records : list equipment)
    (w : world) (msg : string) (fs : list (option string)) :
  records <> [] ->
  faults (store w) = None :: Some msg :: fs ->
  fst (saveEquipment true h (Some records) w) = false /\
  table (store (snd (saveEquipment true h (Some records) w))) = [] /\
  log (store (snd (saveEquipment true h (Some records) w)))
    = log (store w) ++ [DeleteAll; Insert (map (toDb h) records)] /\
  meta (store (snd (saveEquipment true h (Some records) w))) = meta (store w) /\
  data (snd (saveEquipment true h (Some records) w)) = data w /\
  lastRefreshedAt (snd (saveEquipment true h (Some records) w)) = lastRefreshedAt w /\
  error (snd (saveEquipment true h (Some records) w))
    = Some (String.append "Failed to save data: " msg) /\
  isSaving (snd (saveEquipment true h (Some records) w)) = false.
Proof.
  intros Hne Hf. destruct records as [|r rs]; [congruence|].
  open_world w. repeat split. simpl. now rewrite <- app_assoc.
Qed.

Lemma save_insert_failure_empties_witness :
  let w := initial (store_with (map (toDb host_kl) sample_set) [None; Some "check violated"]) 0 in
  fst (saveEquipment true host_kl (Some sample_set) w) = false /\
  table (store (snd (saveEquipment true host_kl (Some sample_set) w))) = [].
Proof.
  intros w.
  destruct (save_insert_failure_empties host_kl sample_set w "check violated" [])
    as (H1 & H2 & _).
  - discriminate.
  - reflexivity.
  - split; [exact H1|exact H2].
Defined.

(** X7. Whatever the store answers, a save of a non-empty record set on a
    configured store ends in one of two ways.  It returns [true]: then the
    table holds exactly the rows of the input, whatever it held before,
    [data] is the input and [error] is cleared.  Or it returns [false]: then
    [error] carries the store's message, [data] and the refresh time are
    what they were, and the table is either untouched or empty.  [isSaving]
    is reset in both cases. *)
Theorem save_outcome (h : host) (r : equipment) (rs : list equipment) (w : world) :
  isSaving (snd (saveEquipment true h (Some (r :: rs)) w)) = false /\
  ((fst (saveEquipment true h (Some (r :: rs)) w) = true /\
    table (store (snd (saveEquipment true h (Some (r :: rs)) w))) = map (toDb h) (r :: rs) /\
    data (snd (saveEquipment true h (Some (r :: rs)) w)) = Some (r :: rs) /\
    error (snd (saveEquipment true h (Some (r :: rs)) w)) = None) \/
   (fst (saveEquipment true h (Some (r :: rs)) w) = false /\
    (exists msg, error (snd (saveEquipment true h (Some (r :: rs)) w))
                   = Some (String.append "Failed to save data: " msg)) /\
    data (snd (saveEquipment true h (Some (r :: rs)) w)) = data w /\
    lastRefreshedAt (snd (saveEquipment true h (Some (r :: rs)) w)) = lastRefreshedAt w /\
    (table (store (snd (saveEquipment true h (Some (r :: rs)) w))) = table (store w) \/
     table (store (snd (saveEquipment true h (Some (r :: rs)) w))) = []))).
Proof.
  open_world w.
  destruct faults0 as [|[m1|] [|[m2|] [|[m3|] fs]]]; simpl;
    (split; [reflexivity|]);
    first [ left; repeat split; reflexivity
          | right; repeat split; eauto ].
Qed.

(** X8. Whatever the store answers, [clearAllData] on a configured store
    makes exactly one call, the delete.  When it succeeds the table is
    empty, [data] is [null] and the result is [true]; when it fails the
    table and [data] are untouched, [error] carries the store's message and
    the result is [false]. *)
Theorem clear_outcome (w : world) :
  log (store (snd (clearAllData true w))) = log (store w) ++ [DeleteAll] /\
  isSaving (snd (clearAllData true w)) = false /\
  ((fst (clearAllData true w) = true /\
    table (store (snd (clearAllData true w))) = [] /\
    data (snd (clearAllData true w)) = None /\
    error (snd (clearAllData true w)) = None) \/
   (fst (clearAllData true w) = false /\
    table (store (snd (clearAllData true w))) = table (store w) /\
    data (snd (clearAllData true w)) = data w /\
    exists msg, error (snd (clearAllData true w))
                  = Some (String.append "Failed to clear data: " msg))).
Proof.
  open_world w.
  destruct faults0 as [|[m1|] fs]; simpl;
    (split; [reflexivity|]); (split; [reflexivity|]);
    first [ left; repeat split; reflexivity
          | right; repeat split; eauto ].
Qed.

(** X9. The handler of the clear button forgets the file name and closes
    the confirmation exactly when the clear succeeded; after a failed clear
    both are what they were. *)
Theorem clear_handler_outcome (configured : bool) (w : world) :
  (fst (clearAllData configured w) = true ->
   fileName (snd (handleClearAllData configured w)) = "" /\
   showClearConfirm (snd (handleClearAllData configured w)) = false /\
   data (snd (handleClearAllData configured w)) = None) /\
  (fst (clearAllData configured w) = false ->
   fileName (snd (handleClearAllData configured w)) = fileName w /\
   showClearConfirm (snd (handleClearAllData configured w)) = showClearConfirm w /\
   data (snd (handleClearAllData configured w)) = data w).
Proof.
  open_world w. destruct configured; simpl.
  - destruct faults0 as [|[m1|] fs]; simpl; split; intros H;
      try discriminate; repeat split.
  - split; intros H; [discriminate|repeat split].
Qed.

Lemma clear_handler_outcome_witness :
  fileName (snd (handleClearAllData true
                   (snd (setFileName "plant.xlsx" (initial (store_with [] [Some "timeout"]) 0)))))
    = "plant.xlsx" /\
  fileName (snd (handleClearAllData true
                   (snd (setFileName "plant.xlsx" (initial (store_with [] [None]) 0)))))
    = "".
Proof.
  split.
  - apply (proj2 (clear_handler_outcome true
                    (snd (setFileName "plant.xlsx" (initial (store_with [] [Some "timeout"]) 0))))).
    reflexivity.
  - apply (proj1 (clear_handler_outcome true
                    (snd (setFileName "plant.xlsx" (initial (store_with [] [None]) 0))))).
    reflexivity.
Defined.

End HookProps.

(** ** Upload and ingestion *)

Module IngestProps.
Import JS JSDate Dates Ingest Hook Spec Notions Fixtures IngestFacts.

Lemma trim_start_first (s : string) (c : ascii) :
  first_char (trim_start s) = Some c -> is_space c = false.
Proof.
  induction s as [|a s IH]; cbn [trim_start]; [discriminate|].
  destruct (is_space a) eqn:E; [exact IH|].
  cbn [first_char]. now intros [= <-].
Qed.

Lemma trim_end_last (s : string) (c : ascii) :
  last_char (trim_end s) = Some c -> is_space c = false.
Proof.
  induction s as [|a s IH]; cbn [trim_end]; [discriminate|].
  destruct (trim_end s) as [|b t] eqn:E.
  - destruct (is_space a) eqn:Ea; cbn [last_char]; [discriminate|now intros [= <-]].
  - cbn [last_char]. exact IH.
Qed.

Lemma trim_end_first (s : string) (c : ascii) :
  first_char (trim_end s) = Some c -> first_char s = Some c.
Proof.
  destruct s as [|a s]; cbn [trim_end]; [discriminate|].
  destruct (trim_end s) as [|b t]; [destruct (is_space a)|]; cbn [first_char];
    try discriminate; now intros [= <-].
Qed.

(** [trim] leaves no white space at either end. *)
Lemma trim_string_trimmed (s : string) : trimmed (trim_string s).
Proof.
  unfold trimmed, trim_string. split; intros c H.
  - apply trim_end_first in H. now apply trim_start_first in H.
  - now apply trim_end_last in H.
Qed.

(** The three outcomes of the mapper on a row. *)
Lemma mapRow_cases (sheetName : string) (r : row) :
  match or_else (or_else (get r "Equiment Type") (get r "Equipment Type")) (VStr "Unknown") with
  | VStr s =>
      if is_valid_status (get r "Status") then
        exists e, mapRow sheetName r = Ok (Some e) /\
                  area e = VStr sheetName /\
                  status e = get r "Status" /\
                  equipmentType e = VStr (trim_string s)
      else mapRow sheetName r = Ok None
  | _ => exists msg, mapRow sheetName r = Throw msg
  end.
Proof.
  unfold mapRow.
  destruct (or_else (or_else _ _) _) as [| |b|n|s|t] eqn:Et; cbn [trim bind];
    try (eexists; reflexivity).
  rewrite default_status_valid.
  destruct (is_valid_status (get r "Status")) eqn:Ev.
  - assert (Hs : or_else (get r "Status") (VStr "Unknown") = get r "Status"
                 /\ truthy (get r "Status") = true).
    { unfold or_else. destruct (get r "Status") as [| |b|n|x|t]; try discriminate.
      cbn [truthy]. destruct (String.eqb_spec x "") as [->|Hx]; [discriminate|].
      now split. }
    destruct Hs as [Hs Ht]. rewrite Hs, Ht. cbn [andb].
    eexists. split; [reflexivity|]. repeat split.
  - rewrite andb_false_r. reflexivity.
Qed.


(** Rows of a sheet are appended to the records collected so far, each with
    the sheet as area. *)
Lemma mapRows_appends (sheetName : string) (rows : list row) :
  forall acc out,
    mapRows sheetName rows acc = Ok out ->
    exists new, out = acc ++ new /\
                Forall (fun e => area e = VStr sheetName) new /\
                (length new <= length rows)%nat.
Proof.
  induction rows as [|r rows IH]; intros acc out; cbn [mapRows].
  - intros [= <-]. exists []. split; [now rewrite app_nil_r|].
    split; [exact (List.Forall_nil _)|cbn [length]; lia].
  - destruct (mapRow sheetName r) as [[e|]|msg] eqn:E; cbn [bind]; [| |discriminate].
    + intros H. apply IH in H as (new & -> & Hn & Hl).
      exists (e :: new). split; [now rewrite <- app_assoc|].
      split; [|cbn [length]; lia].
      constructor; [|exact Hn]. now destruct (mapRow_accepts _ _ _ E).
    + intros H. apply IH in H as (new & -> & Hn & Hl).
      exists new. split; [reflexivity|]. split; [exact Hn|cbn [length]; lia].
Qed.

Lemma ingestAreas_blocks (wb : workbook) (areas : list string) :
  forall acc out,
    ingestAreas wb areas acc = Ok out ->
    exists blocks,
      out = acc ++ concat blocks /\
      Forall2 (fun a b => Forall (fun e => area e = VStr a) b /\
                          (has_sheet wb a = false -> b = []) /\
                          (length b <= length (sheet_rows wb a))%nat)
              areas blocks.
Proof.
  induction areas as [|a areas IH]; intros acc out; cbn [ingestAreas].
  - intros [= <-]. exists []. split; [now rewrite app_nil_r|constructor].
  - destruct (has_sheet wb a) eqn:Hh.
    + destruct (mapRows a (sheet_rows wb a) acc) as [acc'|msg] eqn:E; cbn [bind];
        [|discriminate].
      intros H. apply IH in H as (blocks & -> & Hb).
      apply mapRows_appends in E as (new & -> & Hn & Hl).
      exists (new :: blocks). split; [cbn [concat]; now rewrite <- app_assoc|].
      constructor; [|exact Hb]. split; [exact Hn|].
      split; [intros Hf; congruence|exact Hl].
    + intros H. apply IH in H as (blocks & -> & Hb).
      exists ([] :: blocks). split; [reflexivity|].
      constructor; [|exact Hb]. split; [exact (List.Forall_nil _)|].
      split; [reflexivity|cbn [length]; lia].
Qed.

(** X11. The ingested sequence is made of one block per recognized area,
    in the fixed order of the areas: the records of a block all carry that
    area, a block is empty when the workbook has no sheet of that name, and
    it never holds more records than the sheet has rows. *)
Theorem ingest_blocks (wb : workbook) (out : list equipment) :
  ingest wb = Ok out ->
  exists blocks,
    out = concat blocks /\
    Forall2 (fun a b => Forall (fun e => area e = VStr a) b /\
                        (has_sheet wb a = false -> b = []) /\
                        (length b <= length (sheet_rows wb a))%nat)
            AREAS blocks.
Proof.
  unfold ingest. intros H. apply ingestAreas_blocks in H as (blocks & -> & Hb).
  now exists blocks.
Qed.

Lemma ingest_blocks_witness :
  exists blocks,
    [sample "Ammonia" "Warning" "High alarm" (VStr "15-Nov-2025")] = concat blocks /\
    length blocks = length AREAS.
Proof.
  destruct (ingest_blocks
              {| SheetNames := ["Ammonia"]; Sheets := {[ "Ammonia" := [good_row] ]} |}
              [sample "Ammonia" "Warning" "High alarm" (VStr "15-Nov-2025")])
    as (blocks & H1 & H2).
  - vm_compute. reflexivity.
  - exists blocks. split; [exact H1|]. symmetry. exact (Forall2_length _ _ _ H2).
Defined.

(** X12. Every record that the ingestion produces has a status of the
    enumeration, one of the recognized areas, and an equipment type that is
    text without white space at either end. *)
Theorem ingest_well_formed (wb : workbook) (out : list equipment) :
  ingest wb = Ok out ->
  Forall (fun e =>
            is_valid_status (status e) = true /\
            (exists a, In a AREAS /\ area e = VStr a) /\
            (exists s, equipmentType e = VStr s /\ trimmed s)) out.
Proof.
  intros H. pose proof (ingest_ingested wb out H) as Hi.
  assert (Ht : forall areas acc res,
             Forall (fun e => exists s, equipmentType e = VStr s /\ trimmed s) acc ->
             ingestAreas wb areas acc = Ok res ->
             Forall (fun e => exists s, equipmentType e = VStr s /\ trimmed s) res).
  { assert (Hr : forall sheet rows acc res,
               Forall (fun e => exists s, equipmentType e = VStr s /\ trimmed s) acc ->
               mapRows sheet rows acc = Ok res ->
               Forall (fun e => exists s, equipmentType e = VStr s /\ trimmed s) res).
    { intros sheet rows. induction rows as [|r rows IH]; intros acc res Hacc; cbn [mapRows].
      - now intros [= <-].
      - pose proof (mapRow_cases sheet r) as Ho.
        destruct (mapRow sheet r) as [[e|]|msg] eqn:E; cbn [bind]; [| |discriminate].
        + apply IH. apply Forall_app. split; [exact Hacc|].
          constructor; [|constructor].
          destruct (or_else (or_else _ _) _) as [| |b|n|s|t];
            try (destruct Ho as [m Hm]; discriminate).
          destruct (is_valid_status (get r "Status")); [|discriminate].
          destruct Ho as (e' & [= <-] & _ & _ & He).
          exists (trim_string s). split; [exact He|apply trim_string_trimmed].
        + now apply IH. }
    induction areas as [|a areas IH]; intros acc res Hacc; cbn [ingestAreas].
    - now intros [= <-].
    - destruct (has_sheet wb a); [|now apply IH].
      destruct (mapRows a (sheet_rows wb a) acc) as [acc'|msg] eqn:E; cbn [bind];
        [|discriminate].
      apply IH. exact (Hr _ _ _ _ Hacc E). }
  specialize (Ht AREAS [] out (List.Forall_nil _) H).
  rewrite List.Forall_forall in *. intros e He.
  destruct (Hi e He) as [Hv Ha]. split; [exact Hv|]. split; [exact Ha|]. now apply Ht.
Qed.

Lemma ingest_well_formed_witness :
  Forall (fun e =>
            is_valid_status (status e) = true /\
            (exists a, In a AREAS /\ area e = VStr a) /\
            (exists s, equipmentType e = VStr s /\ trimmed s))
    [sample "Ammonia" "Warning" "High alarm" (VStr "15-Nov-2025")].
Proof.
  apply (ingest_well_formed
           {| SheetNames := ["Ammonia"]; Sheets := {[ "Ammonia" := [good_row] ]} |}).
  vm_compute. reflexivity.
Defined.

(** [has_sheet] is membership in [SheetNames]. *)
Lemma has_sheet_cons (n a : string) (names : list string) (sheets : gmap string (list row)) :
  n <> a ->
  has_sheet {| SheetNames := n :: names; Sheets := sheets |} a
    = has_sheet {| SheetNames := names; Sheets := sheets |} a.
Proof.
  intros Hn. unfold has_sheet. cbn [SheetNames existsb].
  destruct (String.eqb_spec a n) as [->|_]; [congruence|reflexivity].
Qed.

(** X13. A sheet whose name is not one of the recognized areas is ignored:
    adding it to a workbook does not change what is ingested. *)
Theorem ingest_ignores_other_sheets (wb : workbook) (n : string) (rows : list row) :
  ~ In n AREAS ->
  ingest {| SheetNames := n :: SheetNames wb; Sheets := <[n := rows]> (Sheets wb) |}
    = ingest wb.
Proof.
  intros Hn. unfold ingest. generalize (@nil equipment).
  assert (Hsub : forall a, In a AREAS -> In a AREAS) by auto.
  revert Hsub. generalize AREAS at 1 3 4. intros areas.
  induction areas as [|a areas IH]; intros Hsub acc; [reflexivity|].
  assert (Ha : n <> a) by (intros ->; apply Hn, Hsub; now left).
  cbn [ingestAreas].
  assert (Hh : has_sheet {| SheetNames := n :: SheetNames wb;
                            Sheets := <[n := rows]> (Sheets wb) |} a = has_sheet wb a).
  { rewrite (has_sheet_cons n a _ _ Ha). unfold has_sheet. reflexivity. }
  assert (Hr : sheet_rows {| SheetNames := n :: SheetNames wb;
                             Sheets := <[n := rows]> (Sheets wb) |} a = sheet_rows wb a).
  { unfold sheet_rows. cbn [Sheets]. now rewrite lookup_insert_ne. }
  rewrite Hh, Hr.
  assert (IH' : forall acc',
    ingestAreas {| SheetNames := n :: SheetNames wb; Sheets := <[n := rows]> (Sheets wb) |}
      areas acc' = ingestAreas wb areas acc').
  { apply IH. intros x Hx. apply Hsub. now right. }
  destruct (has_sheet wb a); [|apply IH'].
  destruct (mapRows a (sheet_rows wb a) acc); cbn [bind]; [apply IH'|reflexivity].
Qed.

Lemma ingest_ignores_other_sheets_witness :
  ingest {| SheetNames := "Summary" :: SheetNames unknown_workbook;
            Sheets := <["Summary" := [good_row]]> (Sheets unknown_workbook) |}
    = ingest unknown_workbook.
Proof.
  apply ingest_ignores_other_sheets.
  unfold AREAS. cbn [In]. intros H.
  repeat (destruct H as [H|H]; [discriminate|]). exact H.
Defined.

(** X14. After an upload whose workbook is decoded and ingested without
    exception, the in-memory record set is exactly the ingested sequence,
    whether the store is configured or not and whatever it answers to the
    save (also when the save fails, and also when the sequence is empty);
    the file name is recorded and the processing flag is reset. *)
Theorem upload_shows_ingested (configured : bool) (h : host) (name : string)
    (wb : workbook) (allData : list equipment) (w : world) :
  ingest wb = Ok allData ->
  data (snd (handleFileUpload configured h (Some (name, Ok wb)) w)) = Some allData /\
  fileName (snd (handleFileUpload configured h (Some (name, Ok wb)) w)) = name /\
  isProcessingFile (snd (handleFileUpload configured h (Some (name, Ok wb)) w)) = false.
Proof.
  intros Hi. unfold handleFileUpload. cbn [bind]. rewrite Hi.
  destruct w as [d il isv e lr fn ip sc [t m fl lg] ck].
  destruct configured; [|repeat split].
  destruct allData as [|r rs]; [repeat split|].
  destruct fl as [|[m1|] [|[m2|] [|[m3|] fs]]]; repeat split.
Qed.

Lemma upload_shows_ingested_witness :
  data (snd (handleFileUpload true host_kl
               (Some ("export.xlsx",
                      Ok {| SheetNames := ["Ammonia"]; Sheets := {[ "Ammonia" := [good_row] ]} |}))
               (initial (store_with [] [None; Some "rejected"]) 0)))
    = Some [sample "Ammonia" "Warning" "High alarm" (VStr "15-Nov-2025")].
Proof.
  apply (upload_shows_ingested true host_kl "export.xlsx"
           {| SheetNames := ["Ammonia"]; Sheets := {[ "Ammonia" := [good_row] ]} |}).
  vm_compute. reflexivity.
Defined.

(** X15. An upload that cannot be decoded, or whose ingestion throws,
    changes neither the record set nor the store: the data loaded before
    stays.  The handler has by then recorded the file name and cleared the
    error, and it resets the processing flag.  Without a file it does
    nothing at all. *)
Theorem upload_failure_keeps_data (configured : bool) (h : host) (name : string)
    (decoded : result workbook) (msg : string) (w : world) :
  bind decoded ingest = Throw msg ->
  data (snd (handleFileUpload configured h (Some (name, decoded)) w)) = data w /\
  store (snd (handleFileUpload configured h (Some (name, decoded)) w)) = store w /\
  fileName (snd (handleFileUpload configured h (Some (name, decoded)) w)) = name /\
  error (snd (handleFileUpload configured h (Some (name, decoded)) w)) = None /\
  isProcessingFile (snd (handleFileUpload configured h (Some (name, decoded)) w)) = false /\
  handleFileUpload configured h None w = (tt, w).
Proof.
  intros Hb. unfold handleFileUpload. rewrite Hb.
  destruct w. repeat split.
Qed.

Lemma upload_failure_keeps_data_witness :
  let w := initial (store_with [] []) 0 in
  data (snd (handleFileUpload true host_kl (Some ("broken.xlsx", Throw "corrupt")) w)) = data w /\
  store (snd (handleFileUpload true host_kl (Some ("broken.xlsx", Throw "corrupt")) w)) = store w.
Proof.
  intros w.
  destruct (upload_failure_keeps_data true host_kl "broken.xlsx" (Throw "corrupt") "corrupt" w)
    as (H1 & H2 & _).
  - reflexivity.
  - split; [exact H1|exact H2].
Defined.

(** X16. Without a configured store nothing calls it: fetch, save and
    clear report the configuration error and return, and an upload only sets
    the local state. *)
Theorem unconfigured_never_calls (h : host) (e : option (list equipment))
    (file : option (string * result workbook)) (fuel : nat) (w : world) :
  store (snd (fetchEquipment false fuel w)) = store w /\
  store (snd (saveEquipment false h e w)) = store w /\
  store (snd (clearAllData false w)) = store w /\
  store (snd (handleFileUpload false h file w)) = store w /\
  fst (fetchEquipment false fuel w) = Some [] /\
  fst (saveEquipment false h e w) = false /\
  fst (clearAllData false w) = false /\
  error (snd (fetchEquipment false fuel w)) = Some not_configured /\
  error (snd (saveEquipment false h e w)) = Some not_configured /\
  error (snd (clearAllData false w)) = Some not_configured.
Proof.
  destruct w. repeat split.
  unfold handleFileUpload. destruct file as [[name decoded]|]; [|reflexivity].
  destruct (bind decoded ingest); reflexivity.
Qed.

End IngestProps.

(** ** Date Normalizer: the pattern, the time zone, the output *)

Module DateProps.
Import JS JSDate Dates CalendarFacts DateFacts Spec Notions Fixtures.

Lemma append_length (a b : string) :
  String.length (String.append a b) = (String.length a + String.length b)%nat.
Proof.
  induction a as [|c a IHa]; [reflexivity|].
  change (S (String.length (String.append a b)) = S (String.length a + String.length b)).
  now rewrite IHa.
Qed.

Lemma pad_length (w : nat) (n : Z) : String.length (pad w n) = w.
Proof.
  revert n. induction w as [|w IH]; intros n; cbn [pad]; [reflexivity|].
  rewrite append_length, IH. cbn [String.length]. lia.
Qed.

(** X17. [parseDate] never throws and returns one of two things: [null], or
    the ISO form of a date that exists in the calendar, without time
    component: a string of ten characters for the years 0 to 9999, and of
    thirteen (a sign and six digits for the year) otherwise. *)
Theorem parseDate_output (h : host) (v : value) :
  parseDate h v = VNull \/
  exists y m d,
    parseDate h v = VStr (iso_date y m d) /\
    valid_civil y m d /\
    occurs "T" (iso_date y m d) = false /\
    String.length (iso_date y m d)
      = if (0 <=? y) && (y <=? 9999) then 10%nat else 13%nat.
Proof.
  unfold parseDate. destruct (truthy v); cbn [negb]; [|now left].
  destruct (date_of_value h v) as [[t|]|]; [|now left|now left].
  right. rewrite iso_date_of_time.
  exists (YearFromDay (Day t)), (MonthFromDay (Day t)), (DateFromDay (Day t)).
  split; [reflexivity|]. split; [apply civil_of_day_valid|].
  split; [apply occurs_iso_date|].
  unfold iso_date, iso_year.
  destruct ((0 <=? YearFromDay (Day t)) && (YearFromDay (Day t) <=? 9999)).
  - rewrite !append_length. cbn [String.length]. rewrite !append_length, !pad_length.
    cbn [String.length]. rewrite pad_length. reflexivity.
  - destruct (YearFromDay (Day t) <? 0);
      rewrite !append_length; cbn [String.length];
      rewrite !append_length, !pad_length; cbn [String.length];
      rewrite pad_length; reflexivity.
Qed.

(** X18. The matcher is the regular expression
    [^(\d{1,2})-([A-Za-z]{3})-(\d{4})$]: a string matches with the groups
    [d], [m], [y] exactly when it is [d], a dash, [m], a dash and [y], with
    [d] one or two digits, [m] three letters and [y] four digits. *)
Theorem match_ddMmmYyyy_spec (s d m y : string) :
  match_ddMmmYyyy s = Some (d, m, y) <->
  s = String.append d (String "-" (String.append m (String "-" y))) /\
  (String.length d = 1%nat \/ String.length d = 2%nat) /\ digits d /\
  String.length m = 3%nat /\ letters m /\
  String.length y = 4%nat /\ digits y.
Proof.
  unfold digits, letters. split.
  - unfold match_ddMmmYyyy. intros H.
    rewrite <- (string_of_list_ascii_of_string s).
    destruct (list_ascii_of_string s)
      as [|c1 [|c2 [|c3 [|c4 [|c5 [|c6 [|c7 [|c8 [|c9 [|c10 [|c11 [|c12 l]]]]]]]]]]]];
      try discriminate.
    + destruct (all_digits [c1] && is_dash c2 && all_alpha [c3; c4; c5] && is_dash c6
                && all_digits [c7; c8; c9; c10]) eqn:E; [|discriminate].
      injection H as <- <- <-.
      apply andb_true_iff in E as [E Hy4]. apply andb_true_iff in E as [E Hq].
      apply andb_true_iff in E as [E Hm3]. apply andb_true_iff in E as [Hd1 Hp].
      apply Ascii.eqb_eq in Hp, Hq. subst c2 c6.
      unfold str.
      cbn [string_of_list_ascii list_ascii_of_string String.append String.length].
      split; [reflexivity|]. split; [now left|].
      split; [exact Hd1|]. split; [reflexivity|]. split; [exact Hm3|].
      split; [reflexivity|exact Hy4].
    + destruct (all_digits [c1; c2] && is_dash c3 && all_alpha [c4; c5; c6] && is_dash c7
                && all_digits [c8; c9; c10; c11]) eqn:E; [|discriminate].
      injection H as <- <- <-.
      apply andb_true_iff in E as [E Hy4]. apply andb_true_iff in E as [E Hq].
      apply andb_true_iff in E as [E Hm3]. apply andb_true_iff in E as [Hd1 Hp].
      apply Ascii.eqb_eq in Hp, Hq. subst c3 c7.
      unfold str.
      cbn [string_of_list_ascii list_ascii_of_string String.append String.length].
      split; [reflexivity|]. split; [now right|].
      split; [exact Hd1|]. split; [reflexivity|]. split; [exact Hm3|].
      split; [reflexivity|exact Hy4].
  - intros (-> & Hd & Hdd & Hm & Hmm & Hy & Hyy).
    destruct m as [|m1 [|m2 [|m3 [|m4 m]]]]; try discriminate.
    destruct y as [|y1 [|y2 [|y3 [|y4 [|y5 y]]]]]; try discriminate.
    destruct Hd as [Hd|Hd].
    + destruct d as [|d1 [|d2 d]]; try discriminate.
      unfold match_ddMmmYyyy.
      cbn [list_ascii_of_string] in Hdd, Hmm, Hyy.
      cbv [String.append]. cbn [list_ascii_of_string].
      unfold all_digits, all_alpha. rewrite Hdd, Hmm, Hyy.
      change (is_dash "-") with true. cbn [andb]. reflexivity.
    + destruct d as [|d1 [|d2 [|d3 d]]]; try discriminate.
      unfold match_ddMmmYyyy.
      cbn [list_ascii_of_string] in Hdd, Hmm, Hyy.
      cbv [String.append]. cbn [list_ascii_of_string].
      unfold all_digits, all_alpha. rewrite Hdd, Hmm, Hyy.
      change (is_dash "-") with true. cbn [andb]. reflexivity.
Qed.

Lemma match_ddMmmYyyy_spec_witness :
  match_ddMmmYyyy "5-Nov-2025" = Some ("5", "Nov", "2025").
Proof.
  apply (proj2 (match_ddMmmYyyy_spec "5-Nov-2025" "5" "Nov" "2025")).
  vm_compute. repeat split; auto.
Defined.

(** The time value of a local midnight in the years 100 to 9999. *)
Lemma of_local_value (h : host) (y m d : Z) :
  100 <= y <= 9999 -> valid_civil y m d ->
  - msPerDay <= tza h <= msPerDay ->
  of_local h y m d = Some (MakeDay y m d * msPerDay - tza h).
Proof.
  intros Hy Hv Hz. pose proof (MakeDay_range y m d Hy Hv) as Hr.
  unfold of_local, UTC, TimeClip, msPerDay in *.
  destruct (Z.leb_spec 0 y); destruct (Z.leb_spec y 99); cbn [andb]; try lia.
  destruct (Z.leb_spec (Z.abs (MakeDay y m d * 86400000 - tza h)) 8640000000000000);
    [reflexivity|lia].
Qed.

(** X19. At UTC and west of it (up to a day), a string in the D-MMM-YYYY
    form that names an existing date of a year from 100 on is stored as
    exactly that date. *)
Theorem parseDate_west_exact (h : host) (s ds ms ys : string) (m : Z) :
  match_ddMmmYyyy s = Some (ds, ms, ys) ->
  monthMap !! toLowerCase ms = Some m ->
  100 <= parseInt ys <= 9999 ->
  valid_civil (parseInt ys) m (parseInt ds) ->
  - msPerDay < tza h <= 0 ->
  parseDate h (VStr s) = VStr (iso_date (parseInt ys) m (parseInt ds)).
Proof.
  intros Hmatch Hmon Hy Hv Hz.
  destruct (local_date_west h _ _ _ Hy Hv Hz) as (t & Ht & Hiso).
  rewrite (parseDate_pattern h s ds ms ys m t Hmatch Hmon Ht). now rewrite Hiso.
Qed.

Lemma parseDate_west_exact_witness :
  parseDate host_ny (VStr "5-nOV-2025") = VStr (iso_date 2025 10 5).
Proof.
  apply (parseDate_west_exact host_ny "5-nOV-2025" "5" "nOV" "2025" 10).
  - reflexivity.
  - reflexivity.
  - vm_compute. split; discriminate.
  - vm_compute. repeat split; discriminate.
  - vm_compute. split; [reflexivity|discriminate].
Defined.

(** X20. East of UTC (up to a day), the same string is stored as the day
    before the date it names: the result is the ISO form of the existing
    date whose day number is one less. *)
Theorem parseDate_east_day_before (h : host) (s ds ms ys : string) (m : Z) :
  match_ddMmmYyyy s = Some (ds, ms, ys) ->
  monthMap !! toLowerCase ms = Some m ->
  100 <= parseInt ys <= 9999 ->
  valid_civil (parseInt ys) m (parseInt ds) ->
  0 < tza h <= msPerDay ->
  exists y' m' d',
    parseDate h (VStr s) = VStr (iso_date y' m' d') /\
    valid_civil y' m' d' /\
    MakeDay y' m' d' = MakeDay (parseInt ys) m (parseInt ds) - 1.
Proof.
  intros Hmatch Hmon Hy Hv Hz.
  destruct (local_date_east h _ _ _ Hy Hv Hz) as (t & y' & m' & d' & Ht & Hiso & Hv' & Hd').
  exists y', m', d'.
  rewrite (parseDate_pattern h s ds ms ys m t Hmatch Hmon Ht), Hiso.
  split; [reflexivity|]. split; [exact Hv'|exact Hd'].
Qed.

Lemma parseDate_east_day_before_witness :
  exists y' m' d',
    parseDate host_kl (VStr "1-Jan-2025") = VStr (iso_date y' m' d') /\
    valid_civil y' m' d' /\
    MakeDay y' m' d' = MakeDay 2025 0 1 - 1.
Proof.
  apply (parseDate_east_day_before host_kl "1-Jan-2025" "1" "Jan" "2025" 0).
  - reflexivity.
  - reflexivity.
  - vm_compute. split; discriminate.
  - vm_compute. repeat split; discriminate.
  - vm_compute. split; [reflexivity|discriminate].
Defined.

Lemma drop_app_length (a b : string) :
  JS.drop (String.length a) (String.append a b) = b.
Proof.
  induction a as [|c a IH]; [reflexivity|]. exact IH.
Qed.

Lemma slice_last_two (a : string) (x y : ascii) :
  slice_last 2 (String.append a (String x (String y EmptyString)))
    = String x (String y EmptyString).
Proof.
  unfold slice_last. rewrite append_length.
  replace (String.length a + String.length (String x (String y "")) - 2)%nat
    with (String.length a) by (cbn [String.length]; lia).
  apply drop_app_length.
Qed.

Lemma digits_pos_last (fuel : nat) (n : Z) :
  (0 < fuel)%nat -> 0 <= n ->
  exists pre, digits_pos fuel n = String.append pre (String (digit_char n) EmptyString).
Proof.
  intros Hf Hn. destruct fuel as [|f]; [lia|]. cbn [digits_pos].
  destruct (n <? 10).
  - now exists EmptyString.
  - now exists (digits_pos f (n / 10)).
Qed.

(** The last two characters of the decimal form of a number from 10 on are
    its last two digits. *)
Lemma string_of_Z_last_two (n : Z) :
  10 <= n -> slice_last 2 (string_of_Z n) = pad 2 n.
Proof.
  intros Hn. unfold string_of_Z.
  destruct (Z.ltb_spec n 0); [lia|].
  replace (Z.to_nat n + 1)%nat with (S (Z.to_nat n)) by lia.
  cbn [digits_pos]. destruct (Z.ltb_spec n 10); [lia|].
  destruct (digits_pos_last (Z.to_nat n) (n / 10)) as [pre Hpre].
  - lia.
  - apply Z.div_pos; lia.
  - rewrite Hpre.
    assert (Ha : forall a b c, String.append (String.append a b) c
                               = String.append a (String.append b c)).
    { intros a b c. induction a as [|x a IH]; [reflexivity|].
      change (String x (String.append (String.append a b) c)
              = String x (String.append a (String.append b c))). now rewrite IH. }
    rewrite Ha.
    change (String.append (String (digit_char (n / 10)) "") (String (digit_char n) ""))
      with (String (digit_char (n / 10)) (String (digit_char n) "")).
    rewrite slice_last_two. reflexivity.
Qed.

(** X21. The display formatter shows a D-MMM-YYYY date of a year from 100
    on as "Mmm-YY", the month and the last two digits of the year that were
    written, in every time zone (offsets up to a day either way): it reads
    back the local fields that it set. *)
Theorem formatDate_pattern (h : host) (s ds ms ys : string) (m : Z) :
  match_ddMmmYyyy s = Some (ds, ms, ys) ->
  monthMap !! toLowerCase ms = Some m ->
  100 <= parseInt ys <= 9999 ->
  valid_civil (parseInt ys) m (parseInt ds) ->
  - msPerDay <= tza h <= msPerDay ->
  formatDate h (VStr s) =
    VStr (String.append (nth (Z.to_nat m) months "undefined")
            (String "-" (pad 2 (parseInt ys)))).
Proof.
  intros Hmatch Hmon Hy Hv Hz.
  pose proof (of_local_value h _ _ _ Hy Hv Hz) as Ht.
  destruct s as [|c s]; [discriminate|].
  unfold formatDate. cbn [truthy String.eqb negb date_of_value].
  rewrite Hmatch, Hmon, Ht.
  assert (Hday : Day (LocalTime h (MakeDay (parseInt ys) m (parseInt ds) * msPerDay - tza h))
                 = MakeDay (parseInt ys) m (parseInt ds)).
  { unfold LocalTime, Day.
    replace (MakeDay (parseInt ys) m (parseInt ds) * msPerDay - tza h + tza h)
      with (MakeDay (parseInt ys) m (parseInt ds) * msPerDay) by lia.
    apply Z.div_mul. unfold msPerDay. lia. }
  destruct (civil_of_MakeDay _ _ _ Hv) as (Hyear & Hmonth & _).
  unfold getMonth, getFullYear, MonthFromTime, YearFromTime.
  rewrite Hday, Hyear, Hmonth, string_of_Z_last_two by lia.
  reflexivity.
Qed.

Lemma formatDate_pattern_witness :
  formatDate host_kl (VStr "15-Nov-2025") = VStr "Nov-25".
Proof.
  apply (formatDate_pattern host_kl "15-Nov-2025" "15" "Nov" "2025" 10).
  - reflexivity.
  - reflexivity.
  - vm_compute. split; discriminate.
  - vm_compute. repeat split; discriminate.
  - vm_compute. split; discriminate.
Defined.

End DateProps.

(** ** Aggregation Engine: counts, charts, lists and groups *)

Module ViewProps.
Import JS Ingest Views Charts Spec Notions Fixtures ViewFacts.

Lemma valid_status_cases (v : value) :
  is_valid_status v = true ->
  v = VStr "Healthy" \/ v = VStr "Caution" \/ v = VStr "Warning".
Proof.
  unfold is_valid_status. cbn [existsb]. destruct v as [| |b|n|s|t]; try discriminate.
  cbn [strict_eq].
  destruct (String.eqb_spec s "Healthy") as [->|_]; [now left|].
  destruct (String.eqb_spec s "Caution") as [->|_]; [now right; left|].
  destruct (String.eqb_spec s "Warning") as [->|_]; [now right; right|].
  discriminate.
Qed.

Lemma count_status_cons (st : string) (r : equipment) (l : list equipment) :
  count_status st (r :: l)
    = (if is_str (status r) st then 1 else 0) + count_status st l.
Proof.
  unfold count_status. cbn [List.filter].
  destruct (is_str (status r) st); cbn [length]; lia.
Qed.

Lemma count_status_nonneg (st : string) (l : list equipment) : 0 <= count_status st l.
Proof. unfold count_status. lia. Qed.

(** The three counts never exceed the number of records, and add up to it
    when the statuses are of the enumeration. *)
Lemma counts_sum (l : list equipment) :
  count_status "Healthy" l + count_status "Caution" l + count_status "Warning" l
    <= Z.of_nat (length l) /\
  (valid_statuses l ->
   count_status "Healthy" l + count_status "Caution" l + count_status "Warning" l
     = Z.of_nat (length l)).
Proof.
  induction l as [|r l [IH1 IH2]].
  - unfold count_status. cbn [List.filter length]. split; [lia|intros _; lia].
  - rewrite !count_status_cons. cbn [length]. rewrite Nat2Z.inj_succ.
    assert (Hx : (if is_str (status r) "Healthy" then 1 else 0)
                 + (if is_str (status r) "Caution" then 1 else 0)
                 + (if is_str (status r) "Warning" then 1 else 0) <= 1 /\
                 (is_valid_status (status r) = true ->
                  (if is_str (status r) "Healthy" then 1 else 0)
                  + (if is_str (status r) "Caution" then 1 else 0)
                  + (if is_str (status r) "Warning" then 1 else 0) = 1)).
    { split.
      - destruct (status r) as [| |b|n|s|t]; cbn [is_str]; try lia.
        destruct (String.eqb_spec s "Healthy") as [->|_]; [cbn; lia|].
        destruct (String.eqb_spec s "Caution") as [->|_]; [cbn; lia|].
        destruct (String.eqb s "Warning"); lia.
      - intros Hv. destruct (valid_status_cases _ Hv) as [->|[->| ->]]; reflexivity. }
    destruct Hx as [Hx1 Hx2]. split; [lia|].
    intros Hv. inversion Hv as [|? ? Hr Hl]; subst.
    specialize (IH2 Hl). specialize (Hx2 Hr). lia.
Qed.

(** The counts of [stats] against the filtered set. *)
Lemma stats_facts (data : option (list equipment)) (f : selection) :
  total (stats data f) = Z.of_nat (length (filteredData data f)) /\
  0 <= healthy (stats data f) /\ 0 <= caution (stats data f) /\
  0 <= warning (stats data f) /\
  healthy (stats data f) + caution (stats data f) + warning (stats data f)
    <= total (stats data f) /\
  (valid_statuses (filteredData data f) ->
   healthy (stats data f) + caution (stats data f) + warning (stats data f)
     = total (stats data f)).
Proof.
  unfold stats. destruct (counts_sum (filteredData data f)) as [H1 H2].
  destruct (Z.eqb_spec (Z.of_nat (length (filteredData data f))) 0) as [E|E];
    cbn [total healthy caution warning].
  - repeat split; try lia.
  - pose proof (count_status_nonneg "Healthy" (filteredData data f)).
    pose proof (count_status_nonneg "Caution" (filteredData data f)).
    pose proof (count_status_nonneg "Warning" (filteredData data f)).
    repeat split; try lia. exact H2.
Qed.

(** X22. The status counts of the overview: [total] is the number of
    filtered records; [healthy], [caution] and [warning] are not negative
    and never add up to more than [total]; they add up to exactly [total]
    when every filtered record has a status of the enumeration. *)
Theorem stats_counts (data : option (list equipment)) (f : selection) :
  total (stats data f) = Z.of_nat (length (filteredData data f)) /\
  0 <= healthy (stats data f) /\ 0 <= caution (stats data f) /\
  0 <= warning (stats data f) /\
  healthy (stats data f) + caution (stats data f) + warning (stats data f)
    <= total (stats data f) /\
  (valid_statuses (filteredData data f) ->
   healthy (stats data f) + caution (stats data f) + warning (stats data f)
     = total (stats data f)).
Proof. exact (stats_facts data f). Qed.

Lemma stats_counts_witness :
  healthy (stats (Some sample_set) all_selected)
  + caution (stats (Some sample_set) all_selected)
  + warning (stats (Some sample_set) all_selected)
    = total (stats (Some sample_set) all_selected).
Proof.
  apply (stats_counts (Some sample_set) all_selected).
  unfold valid_statuses. repeat constructor.
Defined.

(** X23. The pie chart has a slice for each status with a positive count
    and no other; the slices add up to the three counts, hence to the
    number of filtered records when the statuses are of the enumeration. *)
Theorem pieData_slices (data : option (list equipment)) (f : selection) :
  Forall (fun d => 0 < slice_value d) (pieData (stats data f)) /\
  sum_Z (map slice_value (pieData (stats data f)))
    = healthy (stats data f) + caution (stats data f) + warning (stats data f) /\
  (valid_statuses (filteredData data f) ->
   sum_Z (map slice_value (pieData (stats data f)))
     = Z.of_nat (length (filteredData data f))).
Proof.
  destruct (stats_facts data f) as (Ht & Hh & Hc & Hw & Hle & Hv).
  assert (Hsum : sum_Z (map slice_value (pieData (stats data f)))
                 = healthy (stats data f) + caution (stats data f) + warning (stats data f)).
  { unfold pieData.
    destruct (Z.eqb_spec (total (stats data f)) 0) as [E|E]; [cbn; lia|].
    cbn [List.filter slice_value].
    destruct (Z.ltb_spec 0 (healthy (stats data f)));
      destruct (Z.ltb_spec 0 (caution (stats data f)));
      destruct (Z.ltb_spec 0 (warning (stats data f)));
      cbn [map sum_Z fold_right slice_value]; lia. }
  split; [|split; [exact Hsum|]].
  - unfold pieData. destruct (total (stats data f) =? 0); [constructor|].
    apply List.Forall_forall. intros d Hd. apply filter_In in Hd as [_ Hd].
    now apply Z.ltb_lt.
  - intros Hval. rewrite Hsum, (Hv Hval). exact Ht.
Qed.

Lemma pieData_slices_witness :
  sum_Z (map slice_value (pieData (stats (Some sample_set) all_selected)))
    = Z.of_nat (length (filteredData (Some sample_set) all_selected)).
Proof.
  apply (pieData_slices (Some sample_set) all_selected).
  unfold valid_statuses. repeat constructor.
Defined.

Lemma length_filter_pos {A} (p : A -> bool) (l : list A) :
  (0 <? Z.of_nat (length (List.filter p l))) = existsb p l.
Proof.
  induction l as [|x l IH]; [reflexivity|]. cbn [List.filter existsb].
  destruct (p x); cbn [orb length]; [|exact IH].
  rewrite Nat2Z.inj_succ. apply Z.ltb_lt. lia.
Qed.

Lemma sum_Z_cons (x : Z) (l : list Z) : sum_Z (x :: l) = x + sum_Z l.
Proof. reflexivity. Qed.

Lemma sum_Z_app (a b : list Z) : sum_Z (a ++ b) = sum_Z a + sum_Z b.
Proof.
  induction a as [|x a IH]; [reflexivity|].
  cbn [app]. rewrite !sum_Z_cons, IH. lia.
Qed.

Lemma entries_total (areaData : list equipment) (areas : list string) :
  sum_Z (map area_total (flat_map (entry_of areaData) areas))
    = sum_Z (map (fun a => Z.of_nat (length (in_area a areaData))) areas).
Proof.
  induction areas as [|a areas IH]; [reflexivity|].
  cbn [flat_map map]. rewrite map_app, sum_Z_app, IH, sum_Z_cons.
  unfold entry_of.
  destruct (Z.ltb_spec 0 (Z.of_nat (length (in_area a areaData))));
    cbn [map area_total]; rewrite ?sum_Z_cons; change (sum_Z []) with 0; lia.
Qed.

Lemma entries_names (areaData : list equipment) (areas : list string) :
  map area_name (flat_map (entry_of areaData) areas)
    = List.filter (fun a => existsb (fun x => is_str (area x) a) areaData) areas.
Proof.
  induction areas as [|a areas IH]; [reflexivity|].
  cbn [flat_map List.filter]. rewrite map_app, IH. unfold entry_of, in_area.
  rewrite length_filter_pos.
  destruct (existsb (fun x => is_str (area x) a) areaData); reflexivity.
Qed.

Lemma entries_positive (areaData : list equipment) (areas : list string) :
  Forall (fun e =>
            0 < area_total e /\
            0 <= area_Healthy e /\ 0 <= area_Caution e /\ 0 <= area_Warning e /\
            area_Healthy e + area_Caution e + area_Warning e <= area_total e)
    (flat_map (entry_of areaData) areas).
Proof.
  induction areas as [|a areas IH]; [exact (List.Forall_nil _)|].
  cbn [flat_map]. apply Forall_app. split; [|exact IH].
  unfold entry_of.
  destruct (Z.ltb_spec 0 (Z.of_nat (length (in_area a areaData))));
    [|exact (List.Forall_nil _)].
  constructor; [|exact (List.Forall_nil _)].
  cbn [area_total area_Healthy area_Caution area_Warning].
  pose proof (counts_sum (in_area a areaData)) as [Hc _].
  pose proof (count_status_nonneg "Healthy" (in_area a areaData)).
  pose proof (count_status_nonneg "Caution" (in_area a areaData)).
  pose proof (count_status_nonneg "Warning" (in_area a areaData)).
  repeat split; lia.
Qed.

Lemma one_area (a0 : string) (areas : list string) :
  List.NoDup areas -> In a0 areas ->
  sum_Z (map (fun a => if String.eqb a0 a then 1 else 0) areas) = 1.
Proof.
  intros Hnd. induction Hnd as [|a areas Hn Hnd IH]; [intros []|].
  cbn [map]. rewrite sum_Z_cons.
  intros [->|Hin].
  - rewrite String.eqb_refl.
    assert (Hz : sum_Z (map (fun a => if String.eqb a0 a then 1 else 0) areas) = 0).
    { clear IH Hnd. induction areas as [|b areas IHa]; [reflexivity|].
      cbn [map]. rewrite sum_Z_cons.
      destruct (String.eqb_spec a0 b) as [->|_]; [elim Hn; now left|].
      rewrite IHa; [lia|]. intros H. apply Hn. now right. }
    lia.
  - destruct (String.eqb_spec a0 a) as [->|_]; [contradiction|].
    rewrite (IH Hin). lia.
Qed.

Lemma areas_cover (areas : list string) (l : list equipment) :
  List.NoDup areas ->
  Forall (fun r => exists a, In a areas /\ area r = VStr a) l ->
  sum_Z (map (fun a => Z.of_nat (length (in_area a l))) areas) = Z.of_nat (length l).
Proof.
  intros Hnd Hl. induction Hl as [|r l (a0 & Hin & Ha) Hl IH].
  - induction areas as [|a areas IHa]; [reflexivity|].
    cbn [map]. rewrite sum_Z_cons. inversion Hnd; subst.
    rewrite IHa by assumption. reflexivity.
  - assert (E : forall areas',
      sum_Z (map (fun a => Z.of_nat (length (in_area a (r :: l)))) areas')
      = sum_Z (map (fun a => if String.eqb a0 a then 1 else 0) areas')
        + sum_Z (map (fun a => Z.of_nat (length (in_area a l))) areas')).
    { induction areas' as [|a areas' IHa]; [reflexivity|].
      cbn [map]. rewrite !sum_Z_cons.
      rewrite IHa. unfold in_area at 1. cbn [List.filter]. rewrite Ha. cbn [is_str].
      fold (in_area a l).
      destruct (String.eqb a0 a); cbn [length]; lia. }
    rewrite E, IH, (one_area a0 areas Hnd Hin). cbn [length]. lia.
Qed.

Lemma AREAS_NoDup : List.NoDup AREAS.
Proof.
  unfold AREAS.
  repeat (apply List.NoDup_cons;
          [cbn [In]; intros H;
           repeat (destruct H as [H|H]; [discriminate|]); exact H|]).
  apply List.NoDup_nil.
Qed.

Lemma areaChartData_entries (d : list equipment) (sel : string) :
  areaChartData (Some d) sel
    = flat_map (entry_of (if String.eqb sel "All" then d else in_area sel d)) AREAS.
Proof. reflexivity. Qed.

(** X24. The area breakdown lists the areas that have records, in the
    fixed order of the areas; every entry has a positive total, and its
    three status counts are not negative and do not exceed the total.  With
    no area selected, and when every record carries a recognized area, the
    totals add up to the number of records: no record is counted twice or
    left out. *)
Theorem areaChartData_totals (d : list equipment) (sel : string) :
  map area_name (areaChartData (Some d) sel)
    = List.filter
        (fun a => existsb (fun x => is_str (area x) a)
                    (if String.eqb sel "All" then d else in_area sel d))
        AREAS /\
  Forall (fun e =>
            0 < area_total e /\
            0 <= area_Healthy e /\ 0 <= area_Caution e /\ 0 <= area_Warning e /\
            area_Healthy e + area_Caution e + area_Warning e <= area_total e)
    (areaChartData (Some d) sel) /\
  (recognized d ->
   sum_Z (map area_total (areaChartData (Some d) "All")) = Z.of_nat (length d)) /\
  areaChartData None sel = [].
Proof.
  rewrite !areaChartData_entries.
  split; [apply entries_names|]. split; [apply entries_positive|].
  split; [|reflexivity].
  intros Hr. cbn [String.eqb]. rewrite entries_total.
  apply areas_cover; [apply AREAS_NoDup|exact Hr].
Qed.

Lemma areaChartData_totals_witness :
  sum_Z (map area_total (areaChartData (Some sample_set) "All"))
    = Z.of_nat (length sample_set).
Proof.
  apply (areaChartData_totals sample_set "All").
  unfold recognized, sample_set.
  repeat constructor;
    (eexists; split; [|reflexivity]; unfold AREAS; cbn [In]; tauto).
Defined.

Lemma insert_by_perm {A} (cmp : A -> A -> Z) (x : A) (l : list A) :
  Permutation (insert_by cmp x l) (x :: l).
Proof.
  induction l as [|y l IH]; cbn [insert_by]; [reflexivity|].
  destruct (0 <? cmp x y); [|reflexivity].
  rewrite IH. apply perm_swap.
Qed.

(** The sort returns the elements it was given. *)
Lemma sort_by_perm {A} (cmp : A -> A -> Z) (l : list A) :
  Permutation (sort_by cmp l) l.
Proof.
  induction l as [|x l IH]; cbn [sort_by]; [reflexivity|].
  rewrite insert_by_perm. now constructor.
Qed.


Lemma filter_aging_total (l : list equipment) :
  Forall (fun r => exists s, alarmDescription r = VStr s) l ->
  filter_r is_aging l = Ok (List.filter aging_b l).
Proof.
  induction 1 as [|r l [s Hs] Hl IH]; [reflexivity|].
  cbn [filter_r List.filter]. rewrite IH.
  assert (E : is_aging r = Ok (aging_b r)).
  { unfold is_aging, aging_b. rewrite Hs. cbn [truthy lower bind].
    destruct (negb (is_str (status r) "Healthy")); [|reflexivity].
    destruct (negb (String.eqb s "")); reflexivity. }
  rewrite E. reflexivity.
Qed.

Lemma filter_split {A} (p q pq : A -> bool) (l : list A) :
  (forall x, pq x = p x || q x) ->
  (forall x, p x = true -> q x = false) ->
  Permutation (List.filter p l ++ List.filter q l) (List.filter pq l).
Proof.
  intros Hpq Hex. induction l as [|x l IH]; [reflexivity|].
  cbn [List.filter]. rewrite Hpq.
  destruct (p x) eqn:Ep.
  - rewrite (Hex x Ep). cbn [orb app]. now constructor.
  - cbn [orb]. destruct (q x).
    + symmetry. apply Permutation_cons_app. now symmetry.
    + exact IH.
Qed.

(** X25. On a record set typed as the data model says, the alert list and
    the obsolescence list are computed without exception and divide the
    flagged records (not healthy, with an alarm description) between them:
    together they hold every flagged record of the filtered set exactly
    once, the obsolescence list those whose description contains
    "obsolete" in any letter case, and no record is in both. *)
Theorem alerts_and_aging_partition (data : option (list equipment)) (f : selection) :
  (forall d, data = Some d -> Forall well_typed d) ->
  exists al ag,
    alertItemsAll data f = Ok al /\
    agingItems data f = Ok ag /\
    Permutation (al ++ ag) (List.filter flagged_b (filteredData data f)) /\
    (forall r, In r ag <->
       In r (filteredData data f) /\ status r <> VStr "Healthy" /\
       exists s, alarmDescription r = VStr s /\ contains_ci s "obsolete") /\
    (forall r, In r al -> In r ag -> False).
Proof.
  intros Hwt.
  set (fd := filteredData data f) in *.
  assert (Hfd : Forall well_typed fd).
  { subst fd. unfold filteredData. destruct data as [d|]; [|exact (List.Forall_nil _)].
    apply Forall_filter. now apply Hwt. }
  assert (Htxt : Forall (fun r => exists s, alarmDescription r = VStr s) fd).
  { eapply List.Forall_impl; [|exact Hfd]. intros x [_ Hx]. exact Hx. }
  assert (Hag : agingItems data f = Ok (sort_by by_severity (List.filter aging_b fd))).
  { unfold agingItems. fold fd.
    destruct fd as [|r fd'] eqn:Efd; [reflexivity|].
    cbn [length]. rewrite Nat2Z.inj_succ.
    destruct (Z.eqb_spec (Z.succ (Z.of_nat (length fd'))) 0) as [E|_]; [lia|].
    now rewrite filter_aging_total. }
  assert (Hal : alertItemsAll data f = Ok (sort_by by_severity (List.filter alert_b fd))).
  { unfold alertItemsAll. fold fd.
    destruct fd as [|r fd'] eqn:Efd; [reflexivity|].
    cbn [length]. rewrite Nat2Z.inj_succ.
    destruct (Z.eqb_spec (Z.succ (Z.of_nat (length fd'))) 0) as [E|_]; [lia|].
    now rewrite filter_alert_total. }
  exists (sort_by by_severity (List.filter alert_b fd)),
         (sort_by by_severity (List.filter aging_b fd)).
  split; [exact Hal|]. split; [exact Hag|].
  assert (Hpal : Permutation (sort_by by_severity (List.filter alert_b fd))
                             (List.filter alert_b fd)) by apply sort_by_perm.
  assert (Hpag : Permutation (sort_by by_severity (List.filter aging_b fd))
                             (List.filter aging_b fd)) by apply sort_by_perm.
  assert (Haging : forall r, aging_b r = true <->
            status r <> VStr "Healthy" /\
            exists s, alarmDescription r = VStr s /\ contains_ci s "obsolete").
  { intros r. unfold aging_b. rewrite andb_true_iff, negb_true_iff. split.
    - intros [Hh Ha]. split.
      + intros E. apply is_str_eq in E. congruence.
      + destruct (alarmDescription r) as [| |b|n|s|t]; try discriminate.
        apply andb_true_iff in Ha as [_ Hi]. exists s. split; [reflexivity|].
        now apply includes_spec.
    - intros [Hh (s & -> & Hc)]. split.
      + destruct (is_str (status r) "Healthy") eqn:E; [|reflexivity].
        apply is_str_eq in E. contradiction.
      + apply includes_spec in Hc. rewrite Hc, andb_true_r.
        apply negb_true_iff. destruct (String.eqb_spec s "") as [->|]; [|reflexivity].
        vm_compute in Hc. discriminate. }
  split; [|split].
  - rewrite Hpal, Hpag. apply filter_split.
    + intros x. unfold flagged_b, alert_b, aging_b.
      destruct (negb (is_str (status x) "Healthy")); [|reflexivity].
      destruct (alarmDescription x) as [| |b|n|s|t]; try reflexivity.
      destruct (negb (String.eqb s "")); [|reflexivity].
      cbn [andb]. now destruct (includes (toLowerCase s) "obsolete").
    + intros x. unfold alert_b, aging_b.
      destruct (negb (is_str (status x) "Healthy")); [|discriminate].
      destruct (alarmDescription x) as [| |b|n|s|t]; try discriminate.
      destruct (negb (String.eqb s "")); [|discriminate].
      cbn [andb]. destruct (includes (toLowerCase s) "obsolete"); [discriminate|reflexivity].
  - intros r. rewrite <- Haging. split.
    + intros Hr. apply (Permutation_in _ Hpag) in Hr. now apply filter_In in Hr.
    + intros Hr. apply (Permutation_in _ (Permutation_sym Hpag)). now apply filter_In.
  - intros r Hr1 Hr2.
    apply (Permutation_in _ Hpal) in Hr1. apply filter_In in Hr1 as [_ Ha].
    apply (Permutation_in _ Hpag) in Hr2. apply filter_In in Hr2 as [_ Hg].
    unfold alert_b, aging_b in *.
    destruct (negb (is_str (status r) "Healthy")); [|discriminate].
    destruct (alarmDescription r) as [| |b|n|s|t]; try discriminate.
    destruct (negb (String.eqb s "")); [|discriminate].
    cbn [andb] in *. destruct (includes (toLowerCase s) "obsolete"); discriminate.
Qed.

Lemma alerts_and_aging_partition_witness :
  exists al ag,
    alertItemsAll (Some sample_set) all_selected = Ok al /\
    agingItems (Some sample_set) all_selected = Ok ag /\
    Permutation (al ++ ag)
      (List.filter flagged_b (filteredData (Some sample_set) all_selected)).
Proof.
  destruct (alerts_and_aging_partition (Some sample_set) all_selected)
    as (al & ag & H1 & H2 & H3 & _).
  - intros d [= <-]. unfold sample_set, well_typed.
    repeat constructor; eexists; reflexivity.
  - exists al, ag. split; [exact H1|]. split; [exact H2|exact H3].
Defined.










(** With an inherited key in the list the grouping throws. *)
Lemma group_items_throws (show : value -> string) (l : list equipment) :
  Exists (fun r => inherited (key_of show r) = true) l ->
  forall g, exists msg, group_items show l g = Throw msg.
Proof.
  induction l as [|r l IH]; intros Hex g; [inversion Hex|].
  cbn [group_items]. fold (key_of show r).
  destruct (inherited (key_of show r)) eqn:E; [eexists; reflexivity|].
  apply IH. inversion Hex as [? ? Hr|? ? Hl]; subst; [congruence|exact Hl].
Qed.



(** X27. An alert whose equipment type reads as a property that every
    object inherits ("constructor", "toString", "__proto__", ...) makes the
    grouped alert list throw: under such a key the lookup finds the
    inherited member, no array is created, and [push] is not a function.
    The same holds for the grouped obsolescence list. *)
Theorem grouped_lists_throw (show : value -> string)
    (data : option (list equipment)) (f : selection) :
  (forall al, alertItemsAll data f = Ok al ->
     Exists (fun r => inherited (key_of show r) = true) al ->
     exists msg, groupedAlerts show data f = Throw msg) /\
  (forall ag, agingItems data f = Ok ag ->
     Exists (fun r => inherited (key_of show r) = true) ag ->
     exists msg, groupedAging show data f = Throw msg).
Proof.
  split.
  - intros al Hal Hex. unfold groupedAlerts. rewrite Hal. cbn [bind].
    destruct (group_items_throws show al Hex []) as [msg ->]. now exists msg.
  - intros ag Hag Hex. unfold groupedAging. rewrite Hag. cbn [bind].
    destruct (group_items_throws show ag Hex []) as [msg ->]. now exists msg.
Qed.

Lemma grouped_lists_throw_witness :
  let r := {| area := VStr "Ammonia"; equipmentType := VStr "constructor";
              description := VStr ""; functionalLocation := VStr "";
              criticality := VStr ""; status := VStr "Warning";
              alarmDescription := VStr "High alarm"; rectification := VStr "";
              notificationDate := VStr "" |} in
  exists msg, groupedAlerts (fun _ => "") (Some [r]) all_selected = Throw msg.
Proof.
  intros r.
  apply (proj1 (grouped_lists_throw (fun _ => "") (Some [r]) all_selected) [r]).
  - vm_compute. reflexivity.
  - constructor. vm_compute. reflexivity.
Defined.

Lemma strict_eq_eq (a b : value) : strict_eq a b = true -> a = b.
Proof.
  destruct a, b; cbn [strict_eq]; try discriminate; intros E; try reflexivity.
  - apply Bool.eqb_prop in E. now subst.
  - apply Z.eqb_eq in E. now subst.
  - apply String.eqb_eq in E. now subst.
Qed.

Lemma existsb_strict_eq (t : value) (seen : list value) :
  existsb (strict_eq t) seen = true -> In t seen.
Proof.
  intros E. apply existsb_exists in E as (x & Hx & Ex).
  apply strict_eq_eq in Ex. now subst.
Qed.







Lemma critMap_values (key c : string) :
  critMap !! key = Some c -> c = "C1" \/ c = "C2" \/ c = "C3".
Proof.
  intros E. unfold critMap in E. apply elem_of_list_to_map_2 in E.
  repeat (apply elem_of_cons in E as [E|E]; [injection E as _ ->; auto|]).
  now apply elem_of_nil in E.
Qed.

(** X29. [formatCriticality] shows "-" for a missing criticality and throws
    for a truthy criticality that is not text (a number or a date read from
    a spreadsheet cell).  On what it shows it changes nothing more: applied
    to a value it returned, it returns that value. *)
Theorem formatCriticality_outcome (v : value) :
  (truthy v = false -> formatCriticality v = Ok (Shown (VStr "-"))) /\
  (truthy v = true -> (forall s, v <> VStr s) ->
   exists msg, formatCriticality v = Throw msg) /\
  (forall w, formatCriticality v = Ok (Shown w) ->
   formatCriticality w = Ok (Shown w)).
Proof.
  split; [|split].
  - intros Hf. unfold formatCriticality. now rewrite Hf.
  - intros Ht Hns. unfold formatCriticality. rewrite Ht. cbn [negb].
    destruct v; try (eexists; reflexivity). now elim (Hns s).
  - intros w. unfold formatCriticality at 1.
    destruct (truthy v) eqn:Ht; cbn [negb].
    + destruct v; cbn [lower bind]; try discriminate.
      destruct (critMap !! toLowerCase s) as [c|] eqn:Ec.
      * intros [= <-]. apply critMap_values in Ec as [->| [->| ->]]; vm_compute; reflexivity.
      * destruct (inherited (toLowerCase s)) eqn:Ei; [discriminate|].
        intros [= <-]. unfold formatCriticality. rewrite Ht. cbn [negb lower bind].
        now rewrite Ec, Ei.
    + intros [= <-]. vm_compute. reflexivity.
Qed.

Lemma formatCriticality_outcome_witness :
  formatCriticality (VStr "C2") = Ok (Shown (VStr "C2")) /\
  (exists msg, formatCriticality (VNum 1) = Throw msg).
Proof.
  split.
  - apply (proj2 (proj2 (formatCriticality_outcome (VStr "Medium")))). vm_compute. reflexivity.
  - apply (proj1 (proj2 (formatCriticality_outcome (VNum 1)))).
    + reflexivity.
    + intros s. discriminate.
Defined.

Lemma filter_twice {A} (p q : A -> bool) (l : list A) :
  List.filter p (List.filter q l) = List.filter (fun x => q x && p x) l.
Proof.
  induction l as [|x l IH]; [reflexivity|]. cbn [List.filter].
  destruct (q x); cbn [andb List.filter]; [destruct (p x)|]; now rewrite IH.
Qed.

Lemma filter_sublist {A} (p : A -> bool) (l : list A) :
  sublist (List.filter p l) l.
Proof.
  induction l as [|x l IH]; cbn [List.filter]; [constructor|].
  destruct (p x); [apply sublist_skip|apply sublist_cons]; exact IH.
Qed.

Lemma excluded_false (x : string) (v : value) :
  excluded x v = false <-> x = "All" \/ v = VStr x.
Proof.
  unfold excluded. destruct (String.eqb_spec x "All") as [->|Hx]; cbn [negb andb].
  - split; [now left|reflexivity].
  - rewrite negb_false_iff. split.
    + destruct v; cbn [is_str]; try discriminate.
      intros E. apply String.eqb_eq in E. right. now subst.
    + intros [H| ->]; [contradiction|]. cbn [is_str]. apply String.eqb_refl.
Qed.

(** X30. The filtered set holds, in the order of the data, the records that
    agree with every selection other than "All".  With "All" selected
    three times it is the data; filtering the filtered set again with the
    same selections changes nothing, and two selections can be applied in
    either order. *)
Theorem filteredData_narrows (data : option (list equipment)) (f g : selection) :
  (forall r, In r (filteredData data f) <->
     In r (default [] data) /\
     (selectedArea f = "All" \/ area r = VStr (selectedArea f)) /\
     (selectedEquipment f = "All" \/ equipmentType r = VStr (selectedEquipment f)) /\
     (selectedStatus f = "All" \/ status r = VStr (selectedStatus f))) /\
  sublist (filteredData data f) (default [] data) /\
  filteredData data
    {| selectedArea := "All"; selectedEquipment := "All"; selectedStatus := "All" |}
    = default [] data /\
  filteredData (Some (filteredData data f)) f = filteredData data f /\
  filteredData (Some (filteredData data f)) g
    = filteredData (Some (filteredData data g)) f.
Proof.
  destruct data as [d|]; unfold default; cbn [from_option id filteredData].
  2:{ split; [intros r; cbn [In]; tauto|].
      split; [constructor|]. now repeat split. }
  split; [|split; [|split; [|split]]].
  - intros r. rewrite filter_In, <- !excluded_false.
    destruct (excluded (selectedArea f) (area r)),
             (excluded (selectedEquipment f) (equipmentType r)),
             (excluded (selectedStatus f) (status r)); intuition congruence.
  - apply filter_sublist.
  - cbn [selectedArea selectedEquipment selectedStatus].
    induction d as [|x d IH]; [reflexivity|]. cbn [List.filter].
    unfold excluded at 1 2 3. cbn [String.eqb Ascii.eqb Bool.eqb negb andb].
    fold (@List.filter equipment). now rewrite IH.
  - rewrite filter_twice. apply filter_ext. intros x. apply andb_diag.
  - rewrite !filter_twice. apply filter_ext. intros x. apply andb_comm.
Qed.

End ViewProps.
